(** * Controller orchestration of zigbee-herdsman: a shallow embedding

    Source: [src/controller/controller.ts] (class [Controller]).

    The controller is asynchronous JavaScript running on one thread.  Its
    handlers are embedded as programs of a state-and-rejection monad [M] over
    a [World] that holds the device store, the group store, the controller's
    own field [permitJoinTimer], the runtime's active timers and the ordered
    trace of everything the controller does to the outside (events emitted
    on the controller, commands handed to the adapter).

    Modelling choices, all visible in the definitions below:
    - A [Device] object is a cell of the device store; a reference to it is
      its position in the store, so every holder of the reference sees the
      writes of every other holder.
    - Every handler is embedded at two grains.  In module [Controller] a
      handler is one program, run from its call to its end: what it does
      when nothing else runs between its [await]s.  [onDeviceJoined] stops
      at the interview, the one long-running protocol exchange, and
      [onDeviceJoined_resume] is its continuation.  Under "Handlers, await
      by await" the adapter's listeners are cut at every [await] of the
      source, and a scheduler lets events arrive and stopped handlers go
      on in any order: an emitter does not wait for the promise a listener
      returns.  [permitJoin] is likewise given whole ([Controller.permitJoin],
      a call its caller awaits) and in its two halves around the [await]
      of line 100 ([permitJoin_begin], [permitJoin_resume]).
    - Calls to collaborators resolve, except the call the controller itself
      wraps in [try]/[catch] (the default response), whose outcome is left
      to the collaborator.
    - [debug.log]/[debug.error] lines are not part of the trace. *)

From Stdlib Require Import ZArith String List Bool Lia.
From stdpp Require Import base option list strings gmap.
Import ListNotations.

Local Open Scope string_scope.
Local Open Scope Z_scope.
Local Open Scope list_scope.

(** ** JavaScript values that the controller tests for truthiness *)

Inductive Value :=
| VUndefined
| VNull
| VBool (b : bool)
| VNum (n : Z)
| VStr (s : string).

(** [if (v)], [!v], [a && b] on a value. *)
Definition truthy (v : Value) : bool :=
  match v with
  | VUndefined | VNull => false
  | VBool b => b
  | VNum n => negb (n =? 0)
  | VStr s => negb (String.eqb s "")
  end.

(** [KeyValue] of [./tstype]: a plain object used as a dictionary. *)
Abbreviation KeyValue := (gmap string Value).

(** [data.modelId]: a missing key reads as [undefined]. *)
Definition prop (o : KeyValue) (k : string) : Value := default VUndefined (o !! k).

(** Values of the loosely typed members of the controller object. *)
Inductive JsRef :=
| RUndefined
| RNull
| RTimer (h : nat)
| RMethod (name : string).

Definition truthyRef (r : JsRef) : bool :=
  match r with
  | RUndefined | RNull => false
  | RTimer _ | RMethod _ => true
  end.

(** [r != null] (loose inequality: both [null] and [undefined] compare equal
    to [null]). *)
Definition looseNeNull (r : JsRef) : bool :=
  match r with
  | RUndefined | RNull => false
  | RTimer _ | RMethod _ => true
  end.

(** ** Data model *)

Record Endpoint := { ID : Z }.

(** Interview status of a device, as the specification's data model lists
    it. *)
Inductive InterviewState := not_started | in_progress | interview_ok | interview_failed.

Record Device := {
  deviceType : option string;
  ieeeAddr : string;
  networkAddress : Z;
  manufacturerID : option Z;
  manufacturerName : option string;
  powerSource : option string;
  modelID : Value;
  endpoints : list Endpoint;
  interviewState : InterviewState
}.

(** A reference to a [Device] object: its position in the device store. *)
Abbreviation DeviceRef := nat (only parsing).

Record Group := { groupID : Z }.

(** What [adapter.getCoordinator()] reports. *)
Record Coordinator := {
  coordinator_ieeeAddr : string;
  coordinator_networkAddress : Z;
  coordinator_manufacturerID : Z;
  coordinator_endpoints : list Endpoint
}.

(** ** Frames and adapter payloads *)

(** [FrameType] of [../zcl]; a header can carry a value that is neither. *)
Inductive FrameType := GLOBAL | SPECIFIC | otherFrameType (n : Z).

Record FrameControl := {
  frameType : FrameType;
  disableDefaultResponse : bool
}.

Record ZclHeader := {
  frameControl : FrameControl;
  commandIdentifier : Z
}.

(** What [frame.getCommand()] returns. *)
Record Command := { command_ID : Z; command_name : string }.

Record ZclFrame := {
  Header : ZclHeader;
  Payload : KeyValue;
  ClusterID : Z;
  getCommand : Command
}.

Record DeviceJoinedPayload := {
  joined_ieeeAddr : string;
  joined_networkAddress : Z
}.

Record AdapterDeviceAnnouncePayload := { announce_ieeeAddr : string }.

Record ZclDataPayload := {
  zcl_networkAddress : Z;
  zcl_endpoint : Z;
  zcl_frame : ZclFrame;
  zcl_linkquality : Z;
  zcl_groupID : option Z
}.

(** ** Events of the controller *)

(** [MessagePayloadType] of [./events]: the two kinds the controller names,
    and every other member of the union by its text. *)
Inductive MessagePayloadType :=
| attributeReport
| readResponse
| commandKind (name : string).

(** ['started'] and the three values [device.interview()] resolves to. *)
Inductive InterviewStatus := started | successful | failed | alreadyInProgress.

Record MessagePayload := {
  msg_type : MessagePayloadType;
  msg_device : DeviceRef;
  msg_endpoint : option Endpoint;
  msg_data : option KeyValue;
  msg_linkquality : Z;
  msg_groupID : option Z
}.

Inductive Event :=
| deviceJoined (device : DeviceRef)
| deviceInterview (status : InterviewStatus) (device : DeviceRef)
| deviceAnnounce (device : option DeviceRef)
| message (m : MessagePayload)
| adapterDisconnected.

(** Everything the controller does that is visible outside it, in order. *)
Inductive Action :=
| Emit (e : Event)
| DatabaseOpen
| AdapterStart
| AdapterStop
| AdapterPermitJoin (seconds : Z)
| DefaultResponse (device : DeviceRef) (endpoint : Z) (commandID status clusterID : Z)
| GroupCommand (group : Z) (cluster command : string) (payload : KeyValue).

(** ** Timers of the runtime *)

(** The two callbacks the controller hands to the runtime. *)
Inductive Task := renewPermitJoin | startupTask.

Record Timer := {
  handle : nat;
  recurring : bool;       (* [setInterval] or [setTimeout] *)
  delay_ms : Z;
  task : Task
}.

(** ** The world *)

Record World := {
  devices : list Device;
  groups : list Group;
  permitJoinTimer : JsRef;
  timers : list Timer;
  nextHandle : nat;
  coordinator : Coordinator;
  trace : list Action
}.

Definition set_devices (ds : list Device) (w : World) : World :=
  {| devices := ds; groups := groups w; permitJoinTimer := permitJoinTimer w;
     timers := timers w; nextHandle := nextHandle w; coordinator := coordinator w;
     trace := trace w |}.

Definition set_groups (gs : list Group) (w : World) : World :=
  {| devices := devices w; groups := gs; permitJoinTimer := permitJoinTimer w;
     timers := timers w; nextHandle := nextHandle w; coordinator := coordinator w;
     trace := trace w |}.

Definition set_permitJoinTimer (r : JsRef) (w : World) : World :=
  {| devices := devices w; groups := groups w; permitJoinTimer := r;
     timers := timers w; nextHandle := nextHandle w; coordinator := coordinator w;
     trace := trace w |}.

Definition set_timers (ts : list Timer) (n : nat) (w : World) : World :=
  {| devices := devices w; groups := groups w; permitJoinTimer := permitJoinTimer w;
     timers := ts; nextHandle := n; coordinator := coordinator w;
     trace := trace w |}.

Definition log_action (a : Action) (w : World) : World :=
  {| devices := devices w; groups := groups w; permitJoinTimer := permitJoinTimer w;
     timers := timers w; nextHandle := nextHandle w; coordinator := coordinator w;
     trace := trace w ++ [a] |}.

(** A controller that has just been constructed. *)
Definition newController (c : Coordinator) : World :=
  {| devices := []; groups := []; permitJoinTimer := RUndefined;
     timers := []; nextHandle := 0%nat; coordinator := c; trace := [] |}.

(** ** The monad of asynchronous handlers *)

Inductive Result (A : Type) :=
| Resolved (a : A)
| Rejected (error : string).
Arguments Resolved {A} a.
Arguments Rejected {A} error.

Definition M (A : Type) : Type := World -> Result A * World.

Definition ret {A} (a : A) : M A := fun w => (Resolved a, w).

Definition bind {A B} (c : M A) (k : A -> M B) : M B := fun w =>
  match c w with
  | (Resolved a, w') => k a w'
  | (Rejected e, w') => (Rejected e, w')
  end.

Definition throw {A} (e : string) : M A := fun w => (Rejected e, w).

(** [try { c } catch (error) { h }] *)
Definition try_catch {A} (c : M A) (h : M A) : M A := fun w =>
  match c w with
  | (Resolved a, w') => (Resolved a, w')
  | (Rejected _, w') => h w'
  end.

Definition get_world : M World := fun w => (Resolved w, w).
Definition modify (f : World -> World) : M unit := fun w => (Resolved tt, f w).

Notation "'let!' x ':=' c 'in' k" := (bind c (fun x => k))
  (at level 10, x name, c at level 100, k at level 200).
Notation "c ';;' k" := (bind c (fun _ => k))
  (at level 100, k at level 200, right associativity).

(** [this.emit(...)] *)
Definition emit (e : Event) : M unit := modify (log_action (Emit e)).

(** ** The device and group stores ([./model], reached through [Entity]) *)

(** [Device.findByIeeeAddr]: the first device with that hardware address,
    [null] when there is none. *)
Definition Device_findByIeeeAddr (a : string) : M (option DeviceRef) := fun w =>
  (Resolved (fst <$> list_find (fun d => ieeeAddr d = a) (devices w)), w).

(** [Device.findByNetworkAddress] *)
Definition Device_findByNetworkAddress (n : Z) : M (option DeviceRef) := fun w =>
  (Resolved (fst <$> list_find (fun d => networkAddress d = n) (devices w)), w).

(** Number of devices of a type, for [Device.findByType(t).length]. *)
Definition Device_findByType_length (t : string) : M nat := fun w =>
  (Resolved (length (filter (fun d => deviceType d = Some t) (devices w))), w).

(** [Device.create]: a new cell at the end of the store.  A device is
    created with its interview not started. *)
Definition Device_create (type : option string) (ieee : string) (nwk : Z)
    (manufID : option Z) (manufName power : option string) (model : Value)
    (eps : list Endpoint) : M DeviceRef := fun w =>
  let d := {| deviceType := type; ieeeAddr := ieee; networkAddress := nwk;
              manufacturerID := manufID; manufacturerName := manufName;
              powerSource := power; modelID := model; endpoints := eps;
              interviewState := not_started |} in
  (Resolved (length (devices w)), set_devices (devices w ++ [d]) w).

(** [device.get(key)]; reading through a reference that designates no
    object is a [TypeError]. *)
Definition Device_get {A} (key : Device -> A) (device : DeviceRef) : M A := fun w =>
  match devices w !! device with
  | Some d => (Resolved (key d), w)
  | None => (Rejected "TypeError", w)
  end.

Definition Device_update (f : Device -> Device) (device : DeviceRef) : M unit := fun w =>
  match devices w !! device with
  | Some d => (Resolved tt, set_devices (<[device := f d]> (devices w)) w)
  | None => (Rejected "TypeError", w)
  end.

Definition with_networkAddress (n : Z) (d : Device) : Device :=
  {| deviceType := deviceType d; ieeeAddr := ieeeAddr d; networkAddress := n;
     manufacturerID := manufacturerID d; manufacturerName := manufacturerName d;
     powerSource := powerSource d; modelID := modelID d; endpoints := endpoints d;
     interviewState := interviewState d |}.

Definition with_modelID (v : Value) (d : Device) : Device :=
  {| deviceType := deviceType d; ieeeAddr := ieeeAddr d;
     networkAddress := networkAddress d;
     manufacturerID := manufacturerID d; manufacturerName := manufacturerName d;
     powerSource := powerSource d; modelID := v; endpoints := endpoints d;
     interviewState := interviewState d |}.

Definition with_endpoints (eps : list Endpoint) (d : Device) : Device :=
  {| deviceType := deviceType d; ieeeAddr := ieeeAddr d;
     networkAddress := networkAddress d;
     manufacturerID := manufacturerID d; manufacturerName := manufacturerName d;
     powerSource := powerSource d; modelID := modelID d; endpoints := eps;
     interviewState := interviewState d |}.

Definition with_interviewState (s : InterviewState) (d : Device) : Device :=
  {| deviceType := deviceType d; ieeeAddr := ieeeAddr d;
     networkAddress := networkAddress d;
     manufacturerID := manufacturerID d; manufacturerName := manufacturerName d;
     powerSource := powerSource d; modelID := modelID d; endpoints := endpoints d;
     interviewState := s |}.

(** [device.get('interviewed')]: the interview has completed successfully. *)
Definition interviewed (d : Device) : bool :=
  match interviewState d with
  | interview_ok => true
  | _ => false
  end.

(** [device.getEndpoint(id)] *)
Definition Device_getEndpoint (device : DeviceRef) (id : Z) : M (option Endpoint) :=
  let! eps := Device_get endpoints device in
  ret (snd <$> list_find (fun e => ID e = id) eps).

(** Modelled from the spec: [Device.createEndpoint] of [./model] is not in
    the sources at hand; an endpoint is "created lazily the first time a
    frame references an endpoint not yet known" and belongs to its device. *)
Definition Device_createEndpoint (device : DeviceRef) (id : Z) : M Endpoint :=
  let! eps := Device_get endpoints device in
  Device_update (with_endpoints (eps ++ [{| ID := id |}])) device ;;
  ret {| ID := id |}.

(** Modelled from the spec: [Device.interview] of [./model] is not in the
    sources at hand.  The interview session is a "transient per-device
    marker preventing two concurrent interviews of the same device": a call
    made while the marker is set resolves at once to ['alreadyInProgress']
    and leaves the running interview alone; otherwise the marker is set and
    the call stays pending ([None]) until the interview ends. *)
Definition Device_interview (device : DeviceRef) : M (option InterviewStatus) :=
  let! st := Device_get interviewState device in
  match st with
  | in_progress => ret (Some alreadyInProgress)
  | _ => Device_update (with_interviewState in_progress) device ;; ret None
  end.

(** Modelled from the spec: the end of a running interview, which moves the
    device to "interviewed-ok" or "interviewed-failed" and resolves the
    pending call with the outcome. *)
Definition Device_interview_settle (device : DeviceRef) (ok : bool) : M InterviewStatus :=
  Device_update
    (with_interviewState (if ok then interview_ok else interview_failed)) device ;;
  ret (if ok then successful else failed).

Definition Group_findByGroupID (g : Z) : M (option Group) := fun w =>
  (Resolved (snd <$> list_find (fun x => groupID x = g) (groups w)), w).

Definition Group_create (g : Z) : M Group := fun w =>
  (Resolved {| groupID := g |}, set_groups (groups w ++ [{| groupID := g |}]) w).

(** [group.command(cluster, command, payload)] *)
Definition Group_command (g : Group) (cluster command : string) (payload : KeyValue)
  : M unit :=
  modify (log_action (GroupCommand (groupID g) cluster command payload)).

(** ** The runtime's timers *)

Definition arm (repeat : bool) (t : Task) (ms : Z) : M nat := fun w =>
  let h := nextHandle w in
  (Resolved h,
   set_timers (timers w ++ [{| handle := h; recurring := repeat; delay_ms := ms;
                               task := t |}]) (S h) w).

Definition setInterval (t : Task) (ms : Z) : M nat := arm true t ms.
Definition setTimeout (t : Task) (ms : Z) : M nat := arm false t ms.

(** [clearInterval(r)]: a value that is no timer is ignored. *)
Definition clearInterval (r : JsRef) : M unit := fun w =>
  match r with
  | RTimer h =>
      (Resolved tt,
       set_timers (filter (fun t => handle t <> h) (timers w)) (nextHandle w) w)
  | _ => (Resolved tt, w)
  end.

(** ** The adapter *)

Definition adapter_permitJoin (seconds : Z) : M unit :=
  modify (log_action (AdapterPermitJoin seconds)).

Definition adapter_getCoordinator : M Coordinator := fun w =>
  (Resolved (coordinator w), w).

(** ** The controller *)

Module Controller.

(** Methods of the class, found on every instance through its prototype. *)
Definition methods : list string :=
  ["start"; "permitJoin"; "getPermitJoin"; "stop"; "softReset";
   "getCoordinatorVersion"; "getDevices"; "getDevice"; "getOrCreateGroup";
   "disableLED"; "onDeviceAnnounce"; "onAdapterDisconnected"; "onDeviceJoined";
   "onZclData"].

(** [this.<name>] for the members of interest: the field [permitJoinTimer]
    is the instance's own, a method name yields the method. *)
Definition this_member (w : World) (name : string) : JsRef :=
  if decide (name = "permitJoinTimer") then permitJoinTimer w
  else if decide (name ∈ methods) then RMethod name
  else RUndefined.

Definition getOrCreateGroup (g : Z) : M Group :=
  let! found := Group_findByGroupID g in
  match found with
  | Some grp => ret grp
  | None => Group_create g
  end.

(** The callbacks given to [setInterval] and [setTimeout]. *)
Definition runTask (t : Task) : M unit :=
  match t with
  | renewPermitJoin => adapter_permitJoin 254
  | startupTask =>
      let! device := Device_findByIeeeAddr "0x000b57fffec6a5b2" in
      let! endpoint :=
        match device with
        | Some d => Device_getEndpoint d 1
        | None => throw "TypeError"
        end in
      let! group := getOrCreateGroup 1 in
      Group_command group "genOnOff" "off" ∅
  end.

Definition start : M unit :=
  modify (log_action DatabaseOpen) ;;
  modify (log_action AdapterStart) ;;
  let! n := Device_findByType_length "Coordinator" in
  (if (n =? 0)%nat then
     let! c := adapter_getCoordinator in
     Device_create (Some "Coordinator") (coordinator_ieeeAddr c)
       (coordinator_networkAddress c) (Some (coordinator_manufacturerID c))
       None None VUndefined (coordinator_endpoints c) ;;
     ret tt
   else ret tt) ;;
  setTimeout startupTask 1000 ;;
  ret tt.

Definition permitJoin (permit : bool) : M unit :=
  let! w := get_world in
  if permit && negb (truthyRef (this_member w "permitJoinTimer")) then
    adapter_permitJoin 254 ;;
    let! h := setInterval renewPermitJoin (200 * 1000) in
    modify (set_permitJoinTimer (RTimer h))
  else if permit && truthyRef (this_member w "permitJoinTimer") then
    ret tt
  else
    adapter_permitJoin 0 ;;
    if truthyRef (this_member w "permitJoinTimer") then
      clearInterval (this_member w "permitJoinTimer") ;;
      modify (set_permitJoinTimer RNull)
    else ret tt.

Definition getPermitJoin (w : World) : bool :=
  looseNeNull (this_member w "permitJoin").


Definition onDeviceAnnounce (payload : AdapterDeviceAnnouncePayload) : M unit :=
  let! device := Device_findByIeeeAddr (announce_ieeeAddr payload) in
  emit (deviceAnnounce device).

Definition onAdapterDisconnected : M unit :=
  try_catch (modify (log_action AdapterStop)) (ret tt) ;;
  emit adapterDisconnected.

(** Where a run of [onDeviceJoined] stands when it gives control back. *)
Inductive Suspension :=
| Finished
| AwaitingInterview (device : DeviceRef).

(** The rest of [onDeviceJoined] once [device.interview()] has its value. *)
Definition onDeviceJoined_resume (device : DeviceRef) (status : InterviewStatus)
  : M unit :=
  match status with
  | alreadyInProgress => ret tt
  | _ => emit (deviceInterview status device)
  end.

Definition onDeviceJoined (payload : DeviceJoinedPayload) : M Suspension :=
  let! found := Device_findByIeeeAddr (joined_ieeeAddr payload) in
  let! device :=
    match found with
    | None =>
        let! d := Device_create None (joined_ieeeAddr payload)
                    (joined_networkAddress payload) None None None VUndefined [] in
        emit (deviceJoined d) ;;
        ret d
    | Some d =>
        let! nwk := Device_get networkAddress d in
        if negb (nwk =? joined_networkAddress payload) then
          Device_update (with_networkAddress (joined_networkAddress payload)) d ;;
          ret d
        else ret d
    end in
  let! done := Device_get interviewed device in
  if negb done then
    emit (deviceInterview started device) ;;
    let! pending := Device_interview device in
    match pending with
    | Some status => onDeviceJoined_resume device status ;; ret Finished
    | None => ret (AwaitingInterview device)
    end
  else ret Finished.

(** The interview a run of [onDeviceJoined] is waiting for ends, and the
    run goes on. *)
Definition interviewEnds (device : DeviceRef) (ok : bool) : M unit :=
  let! status := Device_interview_settle device ok in
  onDeviceJoined_resume device status.

End Controller.

(** ** Frame handling *)

(** What [onZclData] imports from modules that are not in the sources at
    hand: the two command ids of [Foundation] ([../zcl]), the table
    [CommandsLookup] ([./events]), [ZclFrameConverter.attributeList]
    ([./helpers]), and whether a given [endpoint.defaultResponse] call
    resolves ([true]) or rejects. *)
Record Imports := {
  Foundation_report_ID : Z;
  Foundation_readRsp_ID : Z;
  CommandsLookup : gmap string MessagePayloadType;
  attributeList : ZclFrame -> KeyValue;
  defaultResponse_resolves : nat -> Z -> Z -> Z -> Z -> bool
}.

(** The same imports with another fate for the default responses. *)
Definition withSendOutcome (outcome : nat -> Z -> Z -> Z -> Z -> bool) (zcl : Imports)
  : Imports :=
  {| Foundation_report_ID := Foundation_report_ID zcl;
     Foundation_readRsp_ID := Foundation_readRsp_ID zcl;
     CommandsLookup := CommandsLookup zcl;
     attributeList := attributeList zcl;
     defaultResponse_resolves := outcome |}.

Section FrameHandling.

Variable zcl : Imports.

(** [endpoint.defaultResponse(commandID, status, clusterID)]: the send is
    attempted, then resolves or rejects. *)
Definition Endpoint_defaultResponse (device : DeviceRef) (endpoint : Endpoint)
    (commandID status clusterID : Z) : M unit :=
  modify (log_action (DefaultResponse device (ID endpoint) commandID status clusterID)) ;;
  if defaultResponse_resolves zcl device (ID endpoint) commandID status clusterID
  then ret tt
  else throw "Error".

(** The block "Parse command for event": the values of [type] and [data]
    after it ([None] is [undefined]). *)
Definition parseCommand (frame : ZclFrame)
  : option MessagePayloadType * option KeyValue :=
  let command := commandIdentifier (Header frame) in
  match frameType (frameControl (Header frame)) with
  | GLOBAL =>
      if command =? Foundation_report_ID zcl then
        (Some attributeReport, Some (attributeList zcl frame))
      else if command =? Foundation_readRsp_ID zcl then
        (Some readResponse, Some (attributeList zcl frame))
      else (None, None)
  | SPECIFIC =>
      let command := command_name (getCommand frame) in
      match CommandsLookup zcl !! command with
      | Some kind => (Some kind, Some (Payload frame))
      | None => (None, None)
      end
  | otherFrameType _ => (None, None)
  end.

(** [type === 'readResponse' || type === 'attributeReport'] *)
Definition reportsAttributes (type : option MessagePayloadType) : bool :=
  match type with
  | Some readResponse | Some attributeReport => true
  | _ => false
  end.

(** [data.modelId]; reading a property of [undefined] is a [TypeError]. *)
Definition data_modelId (data : option KeyValue) : M Value :=
  match data with
  | Some kv => ret (prop kv "modelId")
  | None => throw "TypeError"
  end.

Definition onZclData (zclData : ZclDataPayload) : M unit :=
  let! found := Device_findByNetworkAddress (zcl_networkAddress zclData) in
  match found with
  | None => ret tt
  | Some device =>
      let! known := Device_getEndpoint device (zcl_endpoint zclData) in
      let! endpoint :=
        match known with
        | Some e => ret e
        | None => Device_createEndpoint device (zcl_endpoint zclData)
        end in
      let type := fst (parseCommand (zcl_frame zclData)) in
      let data := snd (parseCommand (zcl_frame zclData)) in
      (if reportsAttributes type then
         let! model := data_modelId data in
         if truthy model then
           let! stored := Device_get modelID device in
           if negb (truthy stored) then Device_update (with_modelID model) device
           else ret tt
         else ret tt
       else ret tt) ;;
      (match type with
       | Some kind =>
           let! endpoint' := Device_getEndpoint device (zcl_endpoint zclData) in
           emit (message {| msg_type := kind; msg_device := device;
                            msg_endpoint := endpoint'; msg_data := data;
                            msg_linkquality := zcl_linkquality zclData;
                            msg_groupID := zcl_groupID zclData |})
       | None => ret tt
       end) ;;
      if negb (disableDefaultResponse (frameControl (Header (zcl_frame zclData)))) then
        try_catch
          (Endpoint_defaultResponse device endpoint
             (command_ID (getCommand (zcl_frame zclData))) 0
             (ClusterID (zcl_frame zclData)))
          (ret tt)
      else ret tt
  end.

End FrameHandling.

(** ** Running the controller *)

(** The runtime fires timer [h]: a one-shot timer is spent before its
    callback runs, a recurring one stays armed. *)
Definition fire (h : nat) : M unit := fun w =>
  match list_find (fun t => handle t = h) (timers w) with
  | Some (_, t) =>
      let w' :=
        if recurring t then w
        else set_timers (filter (fun t => handle t <> h) (timers w)) (nextHandle w) w in
      Controller.runTask (task t) w'
  | None => (Resolved tt, w)
  end.

(** [permitJoin] up to its one [await] (line 100): [true] when the call
    stops there, having tested [permitJoinTimer] and asked the adapter for
    254; the two other branches run to their end. *)
Definition permitJoin_begin (permit : bool) : M bool :=
  let! w := get_world in
  if permit && negb (truthyRef (Controller.this_member w "permitJoinTimer")) then
    adapter_permitJoin 254 ;;
    ret true
  else if permit && truthyRef (Controller.this_member w "permitJoinTimer") then
    ret false
  else
    adapter_permitJoin 0 ;;
    (if truthyRef (Controller.this_member w "permitJoinTimer") then
       clearInterval (Controller.this_member w "permitJoinTimer") ;;
       modify (set_permitJoinTimer RNull)
     else ret tt) ;;
    ret false.

(** The rest of [permitJoin(true)] once the adapter has answered (lines
    103-106): the timer is armed and stored without a second look at
    [permitJoinTimer]. *)
Definition permitJoin_resume : M unit :=
  let! h := setInterval renewPermitJoin (200 * 1000) in
  modify (set_permitJoinTimer (RTimer h)).

(** What can happen to the admission controller: a call of [permitJoin]
    runs up to its [await], the adapter answers a call that waits for it,
    a timer goes off.  Nothing makes a caller wait for a call to end before
    the next call begins. *)
Inductive AdmissionStep :=
| callPermitJoin (permit : bool)
| adapterAnswers
| timerFires (h : nat).

(** The world and the number of [permitJoin(true)] calls that wait for the
    adapter. *)
Definition admissionStep (s : AdmissionStep) (st : World * nat) : World * nat :=
  match s with
  | callPermitJoin permit =>
      match permitJoin_begin permit (fst st) with
      | (Resolved true, w') => (w', S (snd st))
      | (_, w') => (w', snd st)
      end
  | adapterAnswers =>
      match snd st with
      | O => st
      | S waiting => (snd (permitJoin_resume (fst st)), waiting)
      end
  | timerFires h => (snd (fire h (fst st)), snd st)
  end.

Definition admissionRun (steps : list AdmissionStep) (st : World * nat) : World * nat :=
  foldl (fun st s => admissionStep s st) st steps.

(** A caller that awaits every call: each call is followed at once by the
    adapter's answer ([inl permit] is such a call, [inr h] a timer going
    off). *)
Definition awaited (calls : list (bool + nat)) : list AdmissionStep :=
  flat_map (fun c => match c with
                     | inl permit => [callPermitJoin permit; adapterAnswers]
                     | inr h => [timerFires h]
                     end) calls.

(** ** Reading a trace *)

Definition events (tr : list Action) : list Event :=
  omap (fun a => match a with Emit e => Some e | _ => None end) tr.

Definition joinedEvents (tr : list Action) : list DeviceRef :=
  omap (fun a => match a with Emit (deviceJoined d) => Some d | _ => None end) tr.

(** Statuses of the interview events published for one device. *)
Definition interviewEvents (device : DeviceRef) (tr : list Action)
  : list InterviewStatus :=
  omap (fun a => match a with
                 | Emit (deviceInterview s d) =>
                     if (d =? device)%nat then Some s else None
                 | _ => None
                 end) tr.

Definition isDefaultResponse (a : Action) : bool :=
  match a with
  | DefaultResponse _ _ _ _ _ => true
  | _ => false
  end.

Definition defaultResponses (tr : list Action) : list Action :=
  List.filter isDefaultResponse tr.

#[global] Instance Task_eq_dec : EqDecision Task.
Proof. solve_decision. Defined.

(** The renewal timers that are armed. *)
Definition renewalTimers (w : World) : list Timer :=
  filter (fun t => task t = renewPermitJoin) (timers w).

(** The timer [permitJoin(true)] arms. *)
Definition renewalTimer (h : nat) : Timer :=
  {| handle := h; recurring := true; delay_ms := 200 * 1000; task := renewPermitJoin |}.

(** What ties the field [permitJoinTimer] to the armed renewal timers. *)
Definition admissionInvariant (w : World) : Prop :=
  (length (renewalTimers w) <= 1)%nat /\
  (truthyRef (permitJoinTimer w) = false -> renewalTimers w = []) /\
  (truthyRef (permitJoinTimer w) = true ->
   exists h, permitJoinTimer w = RTimer h /\
             Forall (fun t => handle t = h) (renewalTimers w)).

(** No interview-started event for [device] is followed by another one
    before an interview-finished event for it. *)
Fixpoint noDoubleStart (running : bool) (statuses : list InterviewStatus) : bool :=
  match statuses with
  | [] => true
  | started :: rest => negb running && noDoubleStart true rest
  | _ :: rest => noDoubleStart false rest
  end.


(** ** The rest of the controller's public face *)

(** [Device.all()]: every device object of the store. *)
Definition Device_all : M (list nat) := fun w =>
  (Resolved (seq 0 (length (devices w))), w).

(** [Controller.getDevices] *)
Definition getDevices : M (list nat) := Device_all.


(** [Controller.onAdapterDisconnected], with the fate of [adapter.stop()]
    left open: it resolves ([true]) or rejects. *)
Definition onAdapterDisconnected_when (stopResolves : bool) : M unit :=
  try_catch
    (modify (log_action AdapterStop) ;;
     if stopResolves then ret tt else throw "Error")
    (ret tt) ;;
  emit adapterDisconnected.

(** ** Interview events and frames: auxiliary notions *)

(** The interview events a device may see, in order: ['started'] opens an
    interview (or repeats while one runs), an outcome closes a running one,
    nothing follows ['successful'].  [None]: the sequence is not of that
    form; otherwise the state it leaves the device in. *)
Fixpoint lifecycle (s : InterviewState) (statuses : list InterviewStatus)
  : option InterviewState :=
  match statuses with
  | [] => Some s
  | status :: rest =>
      match s, status with
      | not_started, started => lifecycle in_progress rest
      | in_progress, started => lifecycle in_progress rest
      | in_progress, successful => lifecycle interview_ok rest
      | in_progress, failed => lifecycle interview_failed rest
      | interview_failed, started => lifecycle in_progress rest
      | _, _ => None
      end
  end.

(** The parts of the world no adapter event touches. *)
Definition sameRuntime (w w' : World) : Prop :=
  groups w' = groups w /\ timers w' = timers w /\
  permitJoinTimer w' = permitJoinTimer w /\ nextHandle w' = nextHandle w /\
  coordinator w' = coordinator w.

(** The interview state a join leaves a known device in. *)
Definition afterJoin (s : InterviewState) : InterviewState :=
  match s with
  | not_started | interview_failed => in_progress
  | in_progress => in_progress
  | interview_ok => interview_ok
  end.

(** The endpoints of a device once a frame has named endpoint [ep]. *)
Definition endpointsWith (ep : Z) (eps : list Endpoint) : list Endpoint :=
  match list_find (fun e => ID e = ep) eps with
  | Some _ => eps
  | None => eps ++ [{| ID := ep |}]
  end.


(** A join handled to its end with nothing in between: the interview it
    waits for, if any, ends with outcome [ok] before anything else
    happens. *)
Definition onDeviceJoined_alone (payload : DeviceJoinedPayload) (ok : bool) : M unit :=
  let! s := Controller.onDeviceJoined payload in
  match s with
  | Controller.AwaitingInterview device => Controller.interviewEnds device ok
  | Controller.Finished => ret tt
  end.

(** ** Handlers, await by await *)

(** The events the constructor subscribes to (lines 56-63).  The handlers
    are plain listeners: the emitter does not wait for the promise one
    returns before it calls the next. *)
Inductive AdapterEvent :=
| adapterDeviceJoined (payload : DeviceJoinedPayload)
| adapterZclData (payload : ZclDataPayload)
| adapterDeviceAnnounce (payload : AdapterDeviceAnnouncePayload)
| adapterDisconnected_ (stopResolves : bool).

(** A handler stopped at an [await], named by the line of that [await],
    with the values it holds.  The call it waits for has been made. *)
Inductive Suspended :=
| joinAt171 (payload : DeviceJoinedPayload) (found : option nat)
| joinAt175 (device : nat)
| joinAt183 (device : nat)
| joinAt191 (device : nat)
| zclAt204 (zclData : ZclDataPayload) (found : option nat)
| zclAt213 (zclData : ZclDataPayload) (device : nat) (endpoint : Endpoint)
| zclAt240 (zclData : ZclDataPayload) (device : nat) (endpoint : Endpoint)
| zclAt254 (resolves : bool)
| announceAt155 (found : option nat)
| disconnectAt163 (stopResolves : bool).

(** The device object a stopped handler will use when it goes on. *)
Definition deviceOf (s : Suspended) : option nat :=
  match s with
  | joinAt171 _ found => found
  | joinAt175 d | joinAt183 d | joinAt191 d => Some d
  | zclAt204 _ found => found
  | zclAt213 _ d _ | zclAt240 _ d _ => Some d
  | zclAt254 _ | announceAt155 _ | disconnectAt163 _ => None
  end.

Section Interleaving.

Variable zcl : Imports.

(** [onDeviceJoined] from line 186 to the [await] of line 191.  When the
    interview answers ['alreadyInProgress'] the handler has nothing left to
    do. *)
Definition joinFrom186 (device : nat) : M (option Suspended) :=
  let! done := Device_get interviewed device in
  if negb done then
    emit (deviceInterview started device) ;;
    let! pending := Device_interview device in
    match pending with
    | Some status => Controller.onDeviceJoined_resume device status ;; ret None
    | None => ret (Some (joinAt191 device))
    end
  else ret None.

(** [onZclData] from line 243 to the [await] of line 254. *)
Definition zclFrom243 (zclData : ZclDataPayload) (device : nat) (endpoint : Endpoint)
  : M (option Suspended) :=
  let type := fst (parseCommand zcl (zcl_frame zclData)) in
  let data := snd (parseCommand zcl (zcl_frame zclData)) in
  (match type with
   | Some kind =>
       let! endpoint' := Device_getEndpoint device (zcl_endpoint zclData) in
       emit (message {| msg_type := kind; msg_device := device;
                        msg_endpoint := endpoint'; msg_data := data;
                        msg_linkquality := zcl_linkquality zclData;
                        msg_groupID := zcl_groupID zclData |})
   | None => ret tt
   end) ;;
  if negb (disableDefaultResponse (frameControl (Header (zcl_frame zclData)))) then
    modify (log_action
              (DefaultResponse device (ID endpoint)
                 (command_ID (getCommand (zcl_frame zclData))) 0
                 (ClusterID (zcl_frame zclData)))) ;;
    ret (Some (zclAt254
                 (defaultResponse_resolves zcl device (ID endpoint)
                    (command_ID (getCommand (zcl_frame zclData))) 0
                    (ClusterID (zcl_frame zclData)))))
  else ret None.

(** [onZclData] from line 216 to the [await] of line 240, or further. *)
Definition zclFrom216 (zclData : ZclDataPayload) (device : nat) (endpoint : Endpoint)
  : M (option Suspended) :=
  let type := fst (parseCommand zcl (zcl_frame zclData)) in
  let data := snd (parseCommand zcl (zcl_frame zclData)) in
  if reportsAttributes type then
    let! model := data_modelId data in
    if truthy model then
      let! stored := Device_get modelID device in
      if negb (truthy stored) then
        Device_update (with_modelID model) device ;;
        ret (Some (zclAt240 zclData device endpoint))
      else zclFrom243 zclData device endpoint
    else zclFrom243 zclData device endpoint
  else zclFrom243 zclData device endpoint.

(** An event arrives: its handler runs to its first [await]. *)
Definition arrive (e : AdapterEvent) : M (option Suspended) :=
  match e with
  | adapterDeviceJoined payload =>
      let! found := Device_findByIeeeAddr (joined_ieeeAddr payload) in
      ret (Some (joinAt171 payload found))
  | adapterZclData zclData =>
      let! found := Device_findByNetworkAddress (zcl_networkAddress zclData) in
      ret (Some (zclAt204 zclData found))
  | adapterDeviceAnnounce payload =>
      let! found := Device_findByIeeeAddr (announce_ieeeAddr payload) in
      ret (Some (announceAt155 found))
  | adapterDisconnected_ stopResolves =>
      modify (log_action AdapterStop) ;;
      ret (Some (disconnectAt163 stopResolves))
  end.

(** A stopped handler goes on to its next [await] or to its end.  [ok] is
    the outcome of the interview for a handler stopped at line 191; the
    others do not look at it. *)
Definition resume (ok : bool) (s : Suspended) : M (option Suspended) :=
  match s with
  | joinAt171 payload None =>
      let! d := Device_create None (joined_ieeeAddr payload)
                  (joined_networkAddress payload) None None None VUndefined [] in
      ret (Some (joinAt175 d))
  | joinAt171 payload (Some d) =>
      let! nwk := Device_get networkAddress d in
      if negb (nwk =? joined_networkAddress payload) then
        Device_update (with_networkAddress (joined_networkAddress payload)) d ;;
        ret (Some (joinAt183 d))
      else joinFrom186 d
  | joinAt175 d => emit (deviceJoined d) ;; joinFrom186 d
  | joinAt183 d => joinFrom186 d
  | joinAt191 d => Controller.interviewEnds d ok ;; ret None
  | zclAt204 zclData None => ret None
  | zclAt204 zclData (Some d) =>
      let! known := Device_getEndpoint d (zcl_endpoint zclData) in
      match known with
      | Some e => zclFrom216 zclData d e
      | None =>
          let! e := Device_createEndpoint d (zcl_endpoint zclData) in
          ret (Some (zclAt213 zclData d e))
      end
  | zclAt213 zclData d e => zclFrom216 zclData d e
  | zclAt240 zclData d e => zclFrom243 zclData d e
  | zclAt254 _ => ret None
  | announceAt155 found => emit (deviceAnnounce found) ;; ret None
  | disconnectAt163 _ => emit adapterDisconnected ;; ret None
  end.

(** What the runtime does next: hand an adapter event to its handler, or
    let the [k]-th stopped handler go on. *)
Inductive Step :=
| arrives (e : AdapterEvent)
| resumes (k : nat) (ok : bool).

(** One step on the world and the stopped handlers; [None] when the
    handler's promise rejects. *)
Definition step (s : Step) (st : World * list Suspended)
  : option (World * list Suspended) :=
  match s with
  | arrives e =>
      match arrive e (fst st) with
      | (Resolved next, w') => Some (w', snd st ++ option_list next)
      | (Rejected _, _) => None
      end
  | resumes k ok =>
      match snd st !! k with
      | None => Some st
      | Some s =>
          match resume ok s (fst st) with
          | (Resolved next, w') => Some (w', delete k (snd st) ++ option_list next)
          | (Rejected _, _) => None
          end
      end
  end.

Fixpoint schedule (steps : list Step) (st : World * list Suspended)
  : option (World * list Suspended) :=
  match steps with
  | [] => Some st
  | s :: rest =>
      match step s st with
      | Some st' => schedule rest st'
      | None => None
      end
  end.


End Interleaving.

(** The devices whose interview a stopped handler waits for. *)
Definition waiting (pool : list Suspended) : list nat :=
  omap (fun s => match s with joinAt191 d => Some d | _ => None end) pool.

(** The device objects stopped handlers hold exist, and the handlers
    stopped at line 191 wait for distinct interviews that are running. *)
Definition poolSound (st : World * list Suspended) : Prop :=
  Forall (fun s => forall d, deviceOf s = Some d ->
                             (d < length (devices (fst st)))%nat) (snd st) /\
  (forall d, d ∈ waiting (snd st) ->
     interviewState <$> (devices (fst st) !! d) = Some in_progress) /\
  NoDup (waiting (snd st)).

(** A change that leaves every device in place with its hardware address
    and interview state, and publishes no interview event. *)
Definition quietChange (w w' : World) : Prop :=
  sameRuntime w w' /\
  length (devices w') = length (devices w) /\
  (forall i x, devices w !! i = Some x ->
     exists x', devices w' !! i = Some x' /\ ieeeAddr x' = ieeeAddr x /\
                interviewState x' = interviewState x) /\
  exists delta, trace w' = trace w ++ delta /\
                forall i, interviewEvents i delta = [].

(** How the devices and the interview events published since relate two
    worlds: every device is still there with its hardware address; the
    interview events published for it since lead from the state it was in
    to the state it is in ([not_started] for a device created since); no
    interview event names a position that holds no device. *)
Definition evolves (w w' : World) : Prop :=
  exists delta,
    trace w' = trace w ++ delta /\
    (forall i x, devices w !! i = Some x ->
       exists x', devices w' !! i = Some x' /\ ieeeAddr x' = ieeeAddr x /\
                  lifecycle (interviewState x) (interviewEvents i delta)
                  = Some (interviewState x')) /\
    (forall i x', devices w' !! i = Some x' -> (length (devices w) <= i)%nat ->
       lifecycle not_started (interviewEvents i delta) = Some (interviewState x')) /\
    (forall i, (length (devices w') <= i)%nat -> interviewEvents i delta = []).

(** [c] resolves from every world that has device [d], changes it quietly
    and yields a value that satisfies [Q]. *)
Definition quietly {A} (d : nat) (c : M A) (Q : A -> Prop) : Prop :=
  forall w, (d < length (devices w))%nat ->
    exists a w', c w = (Resolved a, w') /\ quietChange w w' /\ Q a.

(** The interview state stored for the device at a position. *)
Definition stateAt (w : World) (i : nat) : option InterviewState :=
  interviewState <$> (devices w !! i).

(** What a handler that goes on quietly with device [d] may stop at next:
    an [await] that holds no other device, and not the interview. *)
Definition tame (d : nat) (next : option Suspended) : Prop :=
  forall s, next = Some s ->
    (forall r, deviceOf s = Some r -> r = d) /\ (forall r, s <> joinAt191 r).

(** What one step of a handler does, for the bookkeeping of the stopped
    handlers: [ended] is the device whose interview this step ends. *)
Definition stepOutcome (w : World) (ended : option nat) (next : option Suspended)
    (w' : World) : Prop :=
  sameRuntime w w' /\ evolves w w' /\
  (forall s r, next = Some s -> deviceOf s = Some r -> (r < length (devices w'))%nat) /\
  (forall i, stateAt w i = Some in_progress -> ended <> Some i ->
             stateAt w' i = Some in_progress) /\
  (forall r, next = Some (joinAt191 r) ->
             stateAt w r <> Some in_progress /\ stateAt w' r = Some in_progress).
(** ** Sample data *)

Module Sample.

Definition coordinator0 : Coordinator :=
  {| coordinator_ieeeAddr := "0x00124b0001"; coordinator_networkAddress := 0;
     coordinator_manufacturerID := 7; coordinator_endpoints := [{| ID := 1 |}] |}.

Definition fresh : World := newController coordinator0.

Definition joinAA : DeviceJoinedPayload :=
  {| joined_ieeeAddr := "0xAA"; joined_networkAddress := 1 |}.

Definition rejoinAA : DeviceJoinedPayload :=
  {| joined_ieeeAddr := "0xAA"; joined_networkAddress := 2 |}.

(** The world once [start()] has been called. *)
Definition started : World := snd (Controller.start fresh).

(** The world once [permitJoin(true)] has been called. *)
Definition admitting : World := snd (Controller.permitJoin true fresh).

(** The world once "0xAA" has joined and its interview is running. *)
Definition interviewing : World := snd (Controller.onDeviceJoined joinAA fresh).

(** The world once that interview has ended well. *)
Definition interviewedOk : World := snd (Controller.interviewEnds 0%nat true interviewing).

(** The world once that interview has failed instead. *)
Definition interviewFailed : World :=
  snd (Controller.interviewEnds 0%nat false interviewing).

(** A unit that cannot be reached: every default response is rejected. *)
Definition imports : Imports :=
  {| Foundation_report_ID := 10; Foundation_readRsp_ID := 1;
     CommandsLookup := {[ "on" := commandKind "commandOn" ]};
     attributeList := Payload;
     defaultResponse_resolves := fun _ _ _ _ _ => false |}.

Definition frame (t : FrameType) (noResponse : bool) (id : Z) (name : string)
    (body : KeyValue) : ZclFrame :=
  {| Header := {| frameControl := {| frameType := t;
                                     disableDefaultResponse := noResponse |};
                  commandIdentifier := id |};
     Payload := body; ClusterID := 6;
     getCommand := {| command_ID := id; command_name := name |} |}.

Definition incoming (nwk : Z) (f : ZclFrame) : ZclDataPayload :=
  {| zcl_networkAddress := nwk; zcl_endpoint := 1; zcl_frame := f;
     zcl_linkquality := 100; zcl_groupID := None |}.

Definition reportX : ZclFrame :=
  frame GLOBAL false 10 "report" {[ "modelId" := VStr "X" ]}.

Definition reportY : ZclFrame :=
  frame GLOBAL false 10 "report" {[ "modelId" := VStr "Y" ]}.

Definition commandOn : ZclFrame := frame SPECIFIC true 1 "on" ∅.

(** A global frame that is neither a report nor a read response. *)
Definition writeRsp : ZclFrame := frame GLOBAL false 4 "writeRsp" ∅.

(** The world after [reportX] from "0xAA". *)
Definition reportedX : World := snd (onZclData imports (incoming 1 reportX) interviewedOk).

(** Two joins of "0xAA" that overlap: both handlers have looked the
    address up before either goes on. *)
Definition overlappingJoins : list Step :=
  [arrives (adapterDeviceJoined joinAA); arrives (adapterDeviceJoined joinAA);
   resumes 0 true; resumes 0 true; resumes 0 true; resumes 0 true].

(** A store that holds the unit the startup task looks for. *)
Definition withBulb : World :=
  snd (Device_create None "0x000b57fffec6a5b2" 9 None None None VUndefined [] fresh).

End Sample.

(** * Properties *)

(** ** Stepping through a handler *)

Lemma bind_resolved {A B} (c : M A) (k : A -> M B) (w w' : World) (a : A) :
  c w = (Resolved a, w') -> bind c k w = k a w'.
Proof. intros H. unfold bind. now rewrite H. Qed.

Lemma find_lookup {A} (P : A -> Prop) `{forall x, Decision (P x)}
    (l : list A) (i : nat) (x : A) :
  list_find P l = Some (i, x) -> l !! i = Some x /\ P x.
Proof. intros Hf. apply list_find_Some in Hf. tauto. Qed.

Lemma find_none {A} (P : A -> Prop) `{forall x, Decision (P x)} (l : list A) :
  Forall (fun x => ~ P x) l -> list_find P l = None.
Proof. intros Hf. now apply list_find_None. Qed.

Lemma find_some {A} (P : A -> Prop) `{forall x, Decision (P x)} (l : list A) :
  Exists P l -> exists i x, list_find P l = Some (i, x).
Proof.
  intros He. apply Exists_exists in He as (x & Hin & HP).
  destruct (list_find_elem_of P l x Hin HP) as [[i y] Hf]. eauto.
Qed.

Lemma Device_get_at {A} (key : Device -> A) (i : DeviceRef) (d : Device) (w : World) :
  devices w !! i = Some d -> Device_get key i w = (Resolved (key d), w).
Proof. intros H. unfold Device_get. now rewrite H. Qed.

(** ** Admission control *)

(** C2 (as the code behaves): [getPermitJoin] reads the method
    [permitJoin], never the timer, so it answers [true] on a controller that
    was just built and has no renewal timer, and again after
    [permitJoin(false)]. *)
Theorem getPermitJoin_true_without_timer (c : Coordinator) :
  truthyRef (permitJoinTimer (newController c)) = false /\
  renewalTimers (newController c) = [] /\
  Controller.getPermitJoin (newController c) = true /\
  (forall w, Controller.getPermitJoin (snd (Controller.permitJoin false w)) = true).
Proof. repeat split. Qed.

Lemma permitJoin_when_disabled (w : World) :
  truthyRef (permitJoinTimer w) = false ->
  Controller.permitJoin true w =
    (Resolved tt,
     set_permitJoinTimer (RTimer (nextHandle w))
       (set_timers (timers w ++ [renewalTimer (nextHandle w)])
          (S (nextHandle w)) (log_action (AdapterPermitJoin 254) w))).
Proof.
  intros H. unfold Controller.permitJoin, bind, get_world.
  change (Controller.this_member w "permitJoinTimer") with (permitJoinTimer w).
  rewrite H. reflexivity.
Qed.

Lemma permitJoin_when_enabled (w : World) :
  truthyRef (permitJoinTimer w) = true ->
  Controller.permitJoin true w = (Resolved tt, w).
Proof.
  intros H. unfold Controller.permitJoin, bind, get_world.
  change (Controller.this_member w "permitJoinTimer") with (permitJoinTimer w).
  rewrite H. reflexivity.
Qed.

Lemma permitJoin_false (w : World) :
  snd (Controller.permitJoin false w) =
    match permitJoinTimer w with
    | RTimer h =>
        set_permitJoinTimer RNull
          (set_timers (filter (fun t => handle t <> h) (timers w)) (nextHandle w)
             (log_action (AdapterPermitJoin 0) w))
    | RMethod _ => set_permitJoinTimer RNull (log_action (AdapterPermitJoin 0) w)
    | _ => log_action (AdapterPermitJoin 0) w
    end.
Proof.
  unfold Controller.permitJoin, bind, get_world.
  change (Controller.this_member w "permitJoinTimer") with (permitJoinTimer w).
  destruct (permitJoinTimer w); reflexivity.
Qed.

Lemma removal_keeps_renewals (h : nat) (l : list Timer) :
  filter (fun t => task t = renewPermitJoin) (filter (fun t => handle t <> h) l) =
  filter (fun t => handle t <> h) (filter (fun t => task t = renewPermitJoin) l).
Proof.
  rewrite !list_filter_filter. apply list_filter_iff. intros t. tauto.
Qed.

Lemma removal_clears (h : nat) (l : list Timer) :
  Forall (fun t => handle t = h) l -> filter (fun t => handle t <> h) l = [].
Proof.
  induction 1 as [|t l Ht Hl IH]; [reflexivity|].
  rewrite filter_cons_False by (intros Hne; now apply Hne). exact IH.
Qed.

Lemma runTask_timers (t : Task) (w : World) :
  timers (snd (Controller.runTask t w)) = timers w /\
  permitJoinTimer (snd (Controller.runTask t w)) = permitJoinTimer w.
Proof.
  destruct t; [now split|].
  unfold Controller.runTask, bind, Device_findByIeeeAddr, Device_getEndpoint,
    Controller.getOrCreateGroup, Group_findByGroupID, Group_create, Group_command,
    modify, throw, ret, bind, Device_get.
  destruct (list_find _ (devices w)) as [[i d]|]; simpl; [|now split].
  destruct (devices w !! i); simpl; [|now split].
  destruct (list_find _ (groups w)) as [[j g]|]; simpl; now split.
Qed.

Lemma invariant_shrinks (w w' : World) (h : nat) :
  admissionInvariant w ->
  timers w' = filter (fun t => handle t <> h) (timers w) ->
  permitJoinTimer w' = permitJoinTimer w ->
  admissionInvariant w'.
Proof.
  intros (Hlen & Hoff & Hon) Ht Hp. unfold admissionInvariant, renewalTimers in *.
  rewrite Ht, Hp, removal_keeps_renewals. repeat split.
  - etransitivity; [apply length_filter | exact Hlen].
  - intros Hf. now rewrite (Hoff Hf).
  - intros Htr. destruct (Hon Htr) as (h' & Hh & Hall). exists h'. split; [exact Hh|].
    rewrite Forall_forall in *. intros t Hin.
    apply list_elem_of_filter in Hin as [_ Hin]. now apply Hall.
Qed.

Lemma invariant_same_timers (w w' : World) :
  admissionInvariant w ->
  timers w' = timers w -> permitJoinTimer w' = permitJoinTimer w ->
  admissionInvariant w'.
Proof.
  unfold admissionInvariant, renewalTimers. intros H Ht Hp. now rewrite Ht, Hp.
Qed.

Lemma permitJoin_keeps_invariant (permit : bool) (w : World) :
  admissionInvariant w -> admissionInvariant (snd (Controller.permitJoin permit w)).
Proof.
  intros Hinv. destruct permit.
  - destruct (truthyRef (permitJoinTimer w)) eqn:Hon.
    + now rewrite permitJoin_when_enabled.
    + rewrite permitJoin_when_disabled by exact Hon.
      destruct Hinv as (_ & Hoff & _). specialize (Hoff Hon).
      unfold admissionInvariant, renewalTimers in *. simpl.
      rewrite filter_app, Hoff. simpl. repeat split.
      * lia.
      * discriminate.
      * intros _. exists (nextHandle w). split; [reflexivity|].
        rewrite filter_cons_True by reflexivity. repeat constructor.
  - rewrite permitJoin_false.
    destruct (permitJoinTimer w) as [| |h|m] eqn:Hp.
    + apply invariant_same_timers with w; [exact Hinv|reflexivity|]. simpl. now rewrite Hp.
    + apply invariant_same_timers with w; [exact Hinv|reflexivity|]. simpl. now rewrite Hp.
    + destruct Hinv as (Hlen & Hoff & Hon).
      destruct Hon as (h' & Hh & Hall); [now rewrite Hp|].
      rewrite Hp in Hh. injection Hh as <-.
      unfold admissionInvariant, renewalTimers in *. simpl.
      rewrite removal_keeps_renewals.
      rewrite (removal_clears _ _ Hall). repeat split; simpl; [lia|discriminate].
    + destruct Hinv as (_ & _ & Hon).
      destruct Hon as (h' & Hh & _); [now rewrite Hp|]. rewrite Hp in Hh. discriminate.
Qed.

Lemma fire_keeps_invariant (h : nat) (w : World) :
  admissionInvariant w -> admissionInvariant (snd (fire h w)).
Proof.
  intros Hinv. unfold fire.
  destruct (list_find _ (timers w)) as [[j t]|]; [|exact Hinv].
  destruct (runTask_timers (task t)
    (if recurring t then w
     else set_timers (filter (fun t0 => handle t0 <> h) (timers w)) (nextHandle w) w))
    as [Ht Hp].
  destruct (recurring t).
  - now apply invariant_same_timers with w.
  - apply invariant_shrinks with w h; [exact Hinv|exact Ht|exact Hp].
Qed.

Lemma newController_invariant (c : Coordinator) : admissionInvariant (newController c).
Proof.
  unfold admissionInvariant, renewalTimers. simpl. repeat split; [lia|discriminate].
Qed.

(** A call cut at its [await] and taken up again at once is the whole
    call. *)
Lemma permitJoin_splits (permit : bool) (w : World) :
  bind (permitJoin_begin permit)
       (fun waits => if waits then permitJoin_resume else ret tt) w
  = Controller.permitJoin permit w.
Proof.
  unfold permitJoin_begin, permitJoin_resume, Controller.permitJoin, bind, get_world,
    adapter_permitJoin, clearInterval, setInterval, arm, modify, ret.
  change (Controller.this_member w "permitJoinTimer") with (permitJoinTimer w).
  destruct permit; destruct (permitJoinTimer w); reflexivity.
Qed.

Lemma awaited_call (permit : bool) (w : World) :
  admissionStep adapterAnswers (admissionStep (callPermitJoin permit) (w, 0%nat)) =
  (snd (Controller.permitJoin permit w), 0%nat).
Proof.
  rewrite <- permitJoin_splits.
  unfold admissionStep, bind. simpl.
  destruct (permitJoin_begin permit w) as [[[|]|err] w']; reflexivity.
Qed.

Lemma awaited_keeps_invariant (calls : list (bool + nat)) (w : World) :
  admissionInvariant w ->
  admissionInvariant (fst (admissionRun (awaited calls) (w, 0%nat))) /\
  snd (admissionRun (awaited calls) (w, 0%nat)) = 0%nat.
Proof.
  revert w. induction calls as [|[permit|h] calls IH]; intros w Hinv.
  - split; [exact Hinv|reflexivity].
  - change (admissionRun (awaited (inl permit :: calls)) (w, 0%nat))
      with (admissionRun (awaited calls)
              (admissionStep adapterAnswers
                 (admissionStep (callPermitJoin permit) (w, 0%nat)))).
    rewrite awaited_call. apply IH. now apply permitJoin_keeps_invariant.
  - change (admissionRun (awaited (inr h :: calls)) (w, 0%nat))
      with (admissionRun (awaited calls) (snd (fire h w), 0%nat)).
    apply IH. now apply fire_keeps_invariant.
Qed.

(** C8 (as the code behaves): a new controller on which
    [permitJoin(true)] is called twice.  When the second call comes after
    the first has ended, one command goes to the adapter and one renewal
    timer is armed.  When the second call comes while the first waits for
    the adapter, both calls have found [permitJoinTimer] unset: two
    commands go to the adapter, two renewal timers are armed, the field
    holds the second only, and [permitJoin(false)] leaves the first one
    armed. *)
Theorem overlapping_permitJoin_arms_two_timers (c : Coordinator) :
  let one := admissionRun (awaited [inl true; inl true]) (newController c, 0%nat) in
  let two := admissionRun [callPermitJoin true; callPermitJoin true;
                           adapterAnswers; adapterAnswers] (newController c, 0%nat) in
  trace (fst one) = [AdapterPermitJoin 254] /\
  renewalTimers (fst one) = [renewalTimer 0] /\
  trace (fst two) = [AdapterPermitJoin 254; AdapterPermitJoin 254] /\
  renewalTimers (fst two) = [renewalTimer 0; renewalTimer 1] /\
  snd two = 0%nat /\
  permitJoinTimer (fst two) = RTimer 1 /\
  renewalTimers (snd (Controller.permitJoin false (fst two))) = [renewalTimer 0].
Proof. repeat split. Qed.

(** ** Startup *)

(** C10: every [start()] arms a one-shot timer of 1000 ms, after opening
    the database, starting the adapter and making sure of a coordinator
    record; the timer's callback looks up the unit "0x000b57fffec6a5b2" and,
    when the store has it, reads its endpoint 1, finds or creates group 1
    and sends that group the command [genOnOff]/[off].  When the store does
    not have the unit the callback stops with a [TypeError] and does
    nothing. *)
Theorem start_arms_startup_task (w : World) :
  (exists w',
     Controller.start w = (Resolved tt, w') /\
     trace w' = trace w ++ [DatabaseOpen; AdapterStart] /\
     Exists (fun d => deviceType d = Some "Coordinator") (devices w') /\
     timers w' = timers w ++ [{| handle := nextHandle w; recurring := false;
                                 delay_ms := 1000; task := startupTask |}]) /\
  (forall w1,
     Exists (fun d => ieeeAddr d = "0x000b57fffec6a5b2") (devices w1) ->
     exists w2,
       Controller.runTask startupTask w1 = (Resolved tt, w2) /\
       trace w2 = trace w1 ++ [GroupCommand 1 "genOnOff" "off" ∅] /\
       devices w2 = devices w1 /\
       (Exists (fun g => groupID g = 1) (groups w1) -> groups w2 = groups w1) /\
       (Forall (fun g => groupID g <> 1) (groups w1) ->
        groups w2 = groups w1 ++ [{| groupID := 1 |}])) /\
  (forall w1,
     Forall (fun d => ieeeAddr d <> "0x000b57fffec6a5b2") (devices w1) ->
     Controller.runTask startupTask w1 = (Rejected "TypeError", w1)).
Proof.
  split; [|split].
  - unfold Controller.start, bind, modify, Device_findByType_length,
      adapter_getCoordinator, Device_create, setTimeout, arm, ret. simpl.
    destruct (length _ =? 0)%nat eqn:Hnone; simpl; eexists;
      (split; [reflexivity|]); simpl; (split; [now rewrite <- app_assoc|]);
      (split; [|reflexivity]).
    + apply Exists_app. right. now apply Exists_cons_hd.
    + apply Nat.eqb_neq in Hnone.
      destruct (filter (fun d => deviceType d = Some "Coordinator") (devices w))
        as [|c l] eqn:Hfilter; [now contradict Hnone|].
      assert (Hin : c ∈ filter (fun d => deviceType d = Some "Coordinator") (devices w))
        by (rewrite Hfilter; apply list_elem_of_here).
      apply list_elem_of_filter in Hin as [Htype Hin].
      apply Exists_exists. eauto.
  - intros w1 Hex. destruct (find_some _ _ Hex) as (i & d & Hfind).
    destruct (find_lookup _ _ _ _ Hfind) as [Hat _].
    unfold Controller.runTask.
    rewrite (bind_resolved _ _ w1 w1 (Some i))
      by (unfold Device_findByIeeeAddr; now rewrite Hfind).
    unfold Device_getEndpoint.
    rewrite (bind_resolved _ _ w1 w1
               (snd <$> list_find (fun e => ID e = 1) (endpoints d)))
      by (rewrite (bind_resolved _ _ w1 w1 (endpoints d))
            by exact (Device_get_at endpoints _ _ _ Hat);
          reflexivity).
    unfold Controller.getOrCreateGroup, bind, Group_findByGroupID, Group_create,
      Group_command, modify, ret.
    destruct (list_find (fun x => groupID x = 1) (groups w1)) as [[j g]|] eqn:Hg; simpl.
    + destruct (find_lookup _ _ _ _ Hg) as [_ Hid]. rewrite Hid.
      eexists. repeat split. intros Hall. exfalso.
      apply list_find_Some in Hg as (Hj & _).
      rewrite Forall_forall in Hall. apply (Hall g); [|exact Hid].
      apply list_elem_of_lookup. eauto.
    + eexists. repeat split. intros Hgrp. exfalso.
      destruct (find_some _ _ Hgrp) as (j & g & Hsome). congruence.
  - intros w1 Hall. unfold Controller.runTask.
    rewrite (bind_resolved _ _ w1 w1 None); [reflexivity|].
    unfold Device_findByIeeeAddr. now rewrite (find_none _ _ Hall).
Qed.

Lemma start_arms_startup_task_witness :
  exists w2,
    Controller.runTask startupTask Sample.withBulb = (Resolved tt, w2) /\
    trace w2 = trace Sample.withBulb ++ [GroupCommand 1 "genOnOff" "off" ∅] /\
    devices w2 = devices Sample.withBulb /\
    (Exists (fun g => groupID g = 1) (groups Sample.withBulb) ->
     groups w2 = groups Sample.withBulb) /\
    (Forall (fun g => groupID g <> 1) (groups Sample.withBulb) ->
     groups w2 = groups Sample.withBulb ++ [{| groupID := 1 |}]).
Proof.
  destruct (start_arms_startup_task Sample.fresh) as (_ & Hrun & _).
  apply Hrun. apply Exists_cons_hd. reflexivity.
Defined.

(** ** Device announce *)

(** C9: a device announce looks the hardware address up and publishes one
    [deviceAnnounce] event with what the lookup gave, [None] when the unit
    is unknown; it publishes nothing else and leaves devices (and with them
    every interview state), groups and timers as they were. *)
Theorem onDeviceAnnounce_republishes (payload : AdapterDeviceAnnouncePayload)
    (w : World) :
  exists (found : option nat) (w' : World),
    Device_findByIeeeAddr (announce_ieeeAddr payload) w = (Resolved found, w) /\
    Controller.onDeviceAnnounce payload w = (Resolved tt, w') /\
    trace w' = trace w ++ [Emit (deviceAnnounce found)] /\
    devices w' = devices w /\ groups w' = groups w /\ timers w' = timers w /\
    (Forall (fun d => ieeeAddr d <> announce_ieeeAddr payload) (devices w) <->
     found = None) /\
    (forall i, found = Some i ->
       exists d, devices w !! i = Some d /\ ieeeAddr d = announce_ieeeAddr payload).
Proof.
  unfold Controller.onDeviceAnnounce, Device_findByIeeeAddr, bind, emit, modify.
  eexists. eexists. split; [reflexivity|]. simpl.
  repeat split.
  - intros Hall. now rewrite (find_none _ _ Hall).
  - intros Hnone.
    destruct (list_find _ (devices w)) eqn:Hf; [discriminate|].
    now apply list_find_None in Hf.
  - intros i Hi.
    destruct (list_find _ (devices w)) as [[j d]|] eqn:Hf; [|discriminate].
    simpl in Hi. injection Hi as <-. exists d. exact (find_lookup _ _ _ _ Hf).
Qed.

(** ** Frames *)

(** C7: a frame whose network address belongs to no device is dropped
    where it stands: the handler resolves and the world (devices, groups,
    timers, trace) is what it was. *)
Theorem onZclData_unknown_device (zcl : Imports) (zclData : ZclDataPayload)
    (w : World) :
  Forall (fun d => networkAddress d <> zcl_networkAddress zclData) (devices w) ->
  onZclData zcl zclData w = (Resolved tt, w).
Proof.
  intros Hall. unfold onZclData.
  rewrite (bind_resolved _ _ w w None); [reflexivity|].
  unfold Device_findByNetworkAddress. now rewrite (find_none _ _ Hall).
Qed.

Lemma onZclData_unknown_device_witness :
  onZclData Sample.imports (Sample.incoming 5 Sample.reportX) Sample.interviewing =
  (Resolved tt, Sample.interviewing).
Proof.
  apply onZclData_unknown_device.
  apply Forall_cons. split; [|apply Forall_nil; exact I].
  simpl. lia.
Defined.

(** ** Joining *)

Lemma joinedEvents_app (tr1 tr2 : list Action) :
  joinedEvents (tr1 ++ tr2) = joinedEvents tr1 ++ joinedEvents tr2.
Proof. apply omap_app. Qed.

Lemma interviewEnds_no_joined (device : nat) (ok : bool) (w : World) :
  joinedEvents (trace (snd (Controller.interviewEnds device ok w))) =
  joinedEvents (trace w).
Proof.
  unfold Controller.interviewEnds, Device_interview_settle, Device_update, bind, ret,
    Controller.onDeviceJoined_resume, emit, modify.
  destruct (devices w !! device); simpl; [|reflexivity].
  destruct ok; simpl; rewrite joinedEvents_app; simpl; apply app_nil_r.
Qed.

(** C4: a join for a hardware address no device has creates the device
    (that address, the announced network address, no endpoint) at the end of
    the store and publishes exactly one [deviceJoined], for it; a join for a
    known device under another network address stores the new network
    address in that device, creates nothing and publishes no [deviceJoined];
    the end of the interview publishes none either. *)
Theorem onDeviceJoined_create_or_readdress (payload : DeviceJoinedPayload) (w : World) :
  (Forall (fun d => ieeeAddr d <> joined_ieeeAddr payload) (devices w) ->
   exists s w' d new,
     Controller.onDeviceJoined payload w = (Resolved s, w') /\
     devices w' = devices w ++ [d] /\
     ieeeAddr d = joined_ieeeAddr payload /\
     networkAddress d = joined_networkAddress payload /\
     endpoints d = [] /\
     trace w' = trace w ++ new /\
     joinedEvents new = [length (devices w)]) /\
  (forall i d,
     list_find (fun d => ieeeAddr d = joined_ieeeAddr payload) (devices w) = Some (i, d) ->
     networkAddress d <> joined_networkAddress payload ->
     exists s w' d' new,
       Controller.onDeviceJoined payload w = (Resolved s, w') /\
       length (devices w') = length (devices w) /\
       devices w' !! i = Some d' /\
       ieeeAddr d' = joined_ieeeAddr payload /\
       networkAddress d' = joined_networkAddress payload /\
       trace w' = trace w ++ new /\
       joinedEvents new = []) /\
  (forall device ok w1,
     joinedEvents (trace (snd (Controller.interviewEnds device ok w1))) =
     joinedEvents (trace w1)).
Proof.
  split; [|split].
  - intros Hall.
    unfold Controller.onDeviceJoined, Controller.onDeviceJoined_resume,
      Device_interview, bind, Device_findByIeeeAddr, Device_create, Device_get,
      Device_update, emit, modify, ret.
    rewrite (find_none _ _ Hall). simpl.
    repeat (rewrite list_lookup_middle by reflexivity; simpl).
    rewrite insert_app_r_alt by lia. rewrite Nat.sub_diag. simpl.
    eexists. eexists. eexists. exists [Emit (deviceJoined (length (devices w)));
                                       Emit (deviceInterview started (length (devices w)))].
    split; [reflexivity|]. simpl. repeat split.
    now rewrite <- app_assoc.
  - intros i d Hfind Hnwk.
    destruct (find_lookup _ _ _ _ Hfind) as [Hat Hieee].
    assert (Hlt : (i < length (devices w))%nat) by now apply lookup_lt_Some with d.
    apply Z.eqb_neq in Hnwk.
    unfold Controller.onDeviceJoined, Controller.onDeviceJoined_resume,
      Device_interview, bind, Device_findByIeeeAddr, Device_create, Device_get,
      Device_update, emit, modify, ret.
    rewrite Hfind. simpl. rewrite Hat. simpl. rewrite Hnwk. simpl.
    unfold interviewed.
    destruct (interviewState d) eqn:Hstate;
      repeat (first [ rewrite Hat
                    | rewrite list_lookup_insert_eq by (rewrite ?length_insert; exact Hlt) ];
              simpl; rewrite ?Hstate; simpl).
    + eexists. eexists. eexists. exists [Emit (deviceInterview started i)].
      split; [reflexivity|]. simpl. rewrite !length_insert.
      rewrite list_lookup_insert_eq by (rewrite ?length_insert; exact Hlt).
      repeat split. exact Hieee.
    + eexists. eexists. eexists. exists [Emit (deviceInterview started i)].
      split; [reflexivity|]. simpl. rewrite !length_insert.
      rewrite list_lookup_insert_eq by (rewrite ?length_insert; exact Hlt).
      repeat split. exact Hieee.
    + eexists. eexists. eexists. exists [].
      split; [reflexivity|]. simpl. rewrite !length_insert.
      rewrite list_lookup_insert_eq by (rewrite ?length_insert; exact Hlt).
      repeat split; [exact Hieee|now rewrite app_nil_r].
    + eexists. eexists. eexists. exists [Emit (deviceInterview started i)].
      split; [reflexivity|]. simpl. rewrite !length_insert.
      rewrite list_lookup_insert_eq by (rewrite ?length_insert; exact Hlt).
      repeat split. exact Hieee.
  - apply interviewEnds_no_joined.
Qed.

Lemma onDeviceJoined_create_or_readdress_witness :
  (exists s w' d new,
     Controller.onDeviceJoined Sample.joinAA Sample.fresh = (Resolved s, w') /\
     devices w' = devices Sample.fresh ++ [d] /\
     ieeeAddr d = joined_ieeeAddr Sample.joinAA /\
     networkAddress d = joined_networkAddress Sample.joinAA /\
     endpoints d = [] /\
     trace w' = trace Sample.fresh ++ new /\
     joinedEvents new = [length (devices Sample.fresh)]) /\
  (exists s w' d' new,
     Controller.onDeviceJoined Sample.rejoinAA Sample.interviewedOk = (Resolved s, w') /\
     length (devices w') = length (devices Sample.interviewedOk) /\
     devices w' !! 0%nat = Some d' /\
     ieeeAddr d' = joined_ieeeAddr Sample.rejoinAA /\
     networkAddress d' = joined_networkAddress Sample.rejoinAA /\
     trace w' = trace Sample.interviewedOk ++ new /\
     joinedEvents new = []).
Proof.
  split.
  - destruct (onDeviceJoined_create_or_readdress Sample.joinAA Sample.fresh)
      as [Hnew _].
    apply Hnew. apply Forall_nil. exact I.
  - destruct (onDeviceJoined_create_or_readdress Sample.rejoinAA Sample.interviewedOk)
      as (_ & Hknown & _).
    eapply Hknown; [reflexivity|]. simpl. lia.
Defined.

(** A join for a device whose interview is running: the handler publishes
    ['started'] once more, gets ['alreadyInProgress'] from the interview,
    publishes no finished event and leaves the interview running. *)
Lemma join_during_interview (payload : DeviceJoinedPayload) (w : World)
    (i : nat) (d : Device) :
  list_find (fun d => ieeeAddr d = joined_ieeeAddr payload) (devices w) = Some (i, d) ->
  networkAddress d = joined_networkAddress payload ->
  interviewState d = in_progress ->
  Controller.onDeviceJoined payload w =
    (Resolved Controller.Finished, log_action (Emit (deviceInterview started i)) w).
Proof.
  intros Hfind Hnwk Hstate.
  destruct (find_lookup _ _ _ _ Hfind) as [Hat _].
  apply Z.eqb_eq in Hnwk.
  unfold Controller.onDeviceJoined, Controller.onDeviceJoined_resume,
    Device_interview, bind, Device_findByIeeeAddr, Device_get, Device_update,
    emit, modify, ret.
  rewrite Hfind. simpl. rewrite Hat. simpl. rewrite Hnwk. simpl.
  unfold interviewed.
  repeat (rewrite Hat; simpl; rewrite ?Hstate; simpl).
  reflexivity.
Qed.

(** C1 (as the code behaves): "0xAA" joins a new controller and its
    interview starts; the same join is delivered again while that interview
    runs.  The second handling gets ['alreadyInProgress'], publishes no
    finished event and does not touch the running interview, but it has
    already published a second ['started']: two ['started'] events for the
    device stand in the trace with no finished event between them, and only
    one finished event follows. *)
Theorem duplicate_join_publishes_second_started :
  let first := Controller.onDeviceJoined Sample.joinAA Sample.fresh in
  let second := Controller.onDeviceJoined Sample.joinAA (snd first) in
  let ended := Controller.interviewEnds 0%nat true (snd second) in
  fst first = Resolved (Controller.AwaitingInterview 0%nat) /\
  interviewEvents 0%nat (trace (snd first)) = [started] /\
  fst second = Resolved Controller.Finished /\
  devices (snd second) = devices (snd first) /\
  interviewEvents 0%nat (trace (snd second)) = [started; started] /\
  noDoubleStart false (interviewEvents 0%nat (trace (snd second))) = false /\
  interviewEvents 0%nat (trace (snd ended)) = [started; started; successful].
Proof. repeat split. Qed.

(** ** Frames from a known device *)

Lemma parseCommand_shape (zcl : Imports) (frame : ZclFrame) :
  (exists kind kv, parseCommand zcl frame = (Some kind, Some kv)) \/
  parseCommand zcl frame = (None, None).
Proof.
  unfold parseCommand.
  destruct (frameType (frameControl (Header frame))).
  - destruct (_ =? Foundation_report_ID zcl); [left; eauto|].
    destruct (_ =? Foundation_readRsp_ID zcl); [left; eauto|now right].
  - destruct (CommandsLookup zcl !! _); [left; eauto|now right].
  - now right.
Qed.

Lemma find_endpoint_created (eps : list Endpoint) (ep : Z) :
  list_find (fun e => ID e = ep) eps = None ->
  list_find (fun e => ID e = ep) (eps ++ [{| ID := ep |}]) =
  Some (length eps, {| ID := ep |}).
Proof.
  intros Hnone. rewrite list_find_app_r by exact Hnone. simpl.
  rewrite decide_True by reflexivity. reflexivity.
Qed.

#[local] Arguments prop : simpl never.
#[local] Arguments truthy : simpl never.

(** What [onZclData] does with a frame from a device it finds: the final
    device cell, and the trace in order. *)
Lemma onZclData_known_device (zcl : Imports) (zclData : ZclDataPayload) (w : World)
    (i : nat) (d : Device) :
  list_find (fun d => networkAddress d = zcl_networkAddress zclData) (devices w)
    = Some (i, d) ->
  let frame := zcl_frame zclData in
  let type := fst (parseCommand zcl frame) in
  let data := snd (parseCommand zcl frame) in
  let model := from_option (fun kv => prop kv "modelId") VUndefined data in
  exists w' d',
    onZclData zcl zclData w = (Resolved tt, w') /\
    devices w' = <[i := d']> (devices w) /\
    ieeeAddr d' = ieeeAddr d /\
    networkAddress d' = networkAddress d /\
    modelID d' =
      (if reportsAttributes type && truthy model && negb (truthy (modelID d))
       then model else modelID d) /\
    trace w' =
      trace w ++
      match type with
      | Some kind =>
          [Emit (message {| msg_type := kind; msg_device := i;
                            msg_endpoint := Some {| ID := zcl_endpoint zclData |};
                            msg_data := data;
                            msg_linkquality := zcl_linkquality zclData;
                            msg_groupID := zcl_groupID zclData |})]
      | None => []
      end ++
      (if disableDefaultResponse (frameControl (Header frame)) then []
       else [DefaultResponse i (zcl_endpoint zclData) (command_ID (getCommand frame)) 0
               (ClusterID frame)]).
Proof.
  intros Hfind frame type data model. subst type data model frame.
  destruct (find_lookup _ _ _ _ Hfind) as [Hat _].
  assert (Hlt : (i < length (devices w))%nat) by now apply lookup_lt_Some with d.
  unfold onZclData.
  rewrite (bind_resolved _ _ w w (Some i))
    by (unfold Device_findByNetworkAddress; now rewrite Hfind).
  remember (zcl_endpoint zclData) as ep eqn:Hep_eq.
  destruct (parseCommand_shape zcl (zcl_frame zclData)) as [(kind & kv & Hparse)|Hparse];
    rewrite Hparse; clear Hparse; simpl fst; simpl snd;
    unfold Endpoint_defaultResponse, data_modelId, Device_createEndpoint,
      Device_getEndpoint, try_catch, bind, Device_get, Device_update, emit, modify,
      throw, ret;
    rewrite Hat; simpl;
    destruct (list_find (fun e => ID e = ep) (endpoints d)) as [[j [id]]|] eqn:Hep;
    try (destruct (find_lookup _ _ _ _ Hep) as [_ Hid]; simpl in Hid; subst id).
  all: simpl.
  all: try destruct kind as [| |name]; simpl.
  all: try destruct (truthy (prop kv "modelId")) eqn:Hmodel; simpl.
  all: try destruct (truthy (modelID d)) eqn:Hstored; simpl.
  all: destruct (disableDefaultResponse _) eqn:Hdis; simpl.
  all: repeat (first [ rewrite Hat
                     | rewrite list_lookup_insert_eq by (rewrite ?length_insert; exact Hlt)
                     | rewrite (find_endpoint_created _ _ Hep)
                     | rewrite Hep
                     | rewrite Hstored
                     | rewrite Hdis ]; simpl).
  all: try destruct (defaultResponse_resolves zcl _ _ _ _ _); simpl.
  all: eexists; eexists; (split; [reflexivity|]); simpl.
  all: rewrite ?list_insert_insert_eq.
  all: (split; [first [reflexivity | symmetry; apply list_insert_id; exact Hat]|]).
  all: simpl; rewrite ?Hmodel, ?Hstored; simpl.
  all: repeat split; rewrite <- ?app_assoc, ?app_nil_r; reflexivity.
Qed.

Lemma events_app (tr1 tr2 : list Action) : events (tr1 ++ tr2) = events tr1 ++ events tr2.
Proof. apply omap_app. Qed.

(** C5: for a frame from a device the store knows, a global frame whose
    command id is [Foundation.report.ID] is published as one message of kind
    [attributeReport] carrying [attributeList(frame)]; a global frame whose
    command id is [Foundation.readRsp.ID] (an id other than the report id)
    as one message of kind [readResponse] with the same payload; a specific
    frame whose command name is a key of [CommandsLookup] as one message of
    the kind found there carrying the frame's payload; a specific frame
    whose command name is no key publishes no event. *)
Theorem onZclData_classification (zcl : Imports) (zclData : ZclDataPayload)
    (w : World) (i : nat) (d : Device) :
  list_find (fun d => networkAddress d = zcl_networkAddress zclData) (devices w)
    = Some (i, d) ->
  let frame := zcl_frame zclData in
  exists w' new,
    onZclData zcl zclData w = (Resolved tt, w') /\
    trace w' = trace w ++ new /\
    (frameType (frameControl (Header frame)) = GLOBAL ->
     commandIdentifier (Header frame) = Foundation_report_ID zcl ->
     exists m, events new = [message m] /\ msg_device m = i /\
               msg_type m = attributeReport /\
               msg_data m = Some (attributeList zcl frame)) /\
    (frameType (frameControl (Header frame)) = GLOBAL ->
     commandIdentifier (Header frame) = Foundation_readRsp_ID zcl ->
     Foundation_readRsp_ID zcl <> Foundation_report_ID zcl ->
     exists m, events new = [message m] /\ msg_device m = i /\
               msg_type m = readResponse /\
               msg_data m = Some (attributeList zcl frame)) /\
    (frameType (frameControl (Header frame)) = SPECIFIC ->
     forall kind,
       CommandsLookup zcl !! command_name (getCommand frame) = Some kind ->
       exists m, events new = [message m] /\ msg_device m = i /\
                 msg_type m = kind /\ msg_data m = Some (Payload frame)) /\
    (frameType (frameControl (Header frame)) = SPECIFIC ->
     CommandsLookup zcl !! command_name (getCommand frame) = None ->
     events new = []).
Proof.
  intros Hfind frame.
  destruct (onZclData_known_device zcl zclData w i d Hfind)
    as (w' & d' & Hrun & _ & _ & _ & _ & Htrace).
  fold frame in Htrace.
  exists w'. eexists. split; [exact Hrun|]. split; [exact Htrace|].
  rewrite events_app.
  replace (events (if disableDefaultResponse (frameControl (Header frame)) then []
                   else [DefaultResponse i (zcl_endpoint zclData)
                           (command_ID (getCommand frame)) 0 (ClusterID frame)]))
    with (@nil Event) by (destruct (disableDefaultResponse _); reflexivity).
  rewrite app_nil_r. unfold parseCommand. fold frame.
  repeat split.
  - intros Hglobal Hid. rewrite Hglobal, Hid, Z.eqb_refl. simpl. eauto.
  - intros Hglobal Hid Hne. rewrite Hglobal, Hid, Z.eqb_refl.
    apply Z.eqb_neq in Hne. rewrite Hne. simpl. eauto.
  - intros Hspecific kind Hkind. rewrite Hspecific, Hkind. simpl. eauto.
  - intros Hspecific Hnone. rewrite Hspecific, Hnone. reflexivity.
Qed.

Lemma onZclData_classification_witness :
  exists w' new,
    onZclData Sample.imports (Sample.incoming 1 Sample.commandOn) Sample.interviewedOk
      = (Resolved tt, w') /\
    trace w' = trace Sample.interviewedOk ++ new /\
    exists m, events new = [message m] /\ msg_device m = 0%nat /\
              msg_type m = commandKind "commandOn" /\
              msg_data m = Some (Payload Sample.commandOn).
Proof.
  destruct (onZclData_classification Sample.imports
              (Sample.incoming 1 Sample.commandOn) Sample.interviewedOk 0%nat
              {| deviceType := None; ieeeAddr := "0xAA"; networkAddress := 1;
                 manufacturerID := None; manufacturerName := None;
                 powerSource := None; modelID := VUndefined; endpoints := [];
                 interviewState := interview_ok |} eq_refl)
    as (w' & new & Hrun & Htrace & _ & _ & Hspecific & _).
  exists w', new. split; [exact Hrun|]. split; [exact Htrace|].
  apply Hspecific; reflexivity.
Defined.

(** C3, amended: for a frame from a device the store knows, a default
    response is attempted exactly when the header does not disable it; it
    goes through the frame's endpoint of that device with the id of the
    frame's command, status 0 and the frame's cluster id; it is the last
    thing the handler does, after the message event of a classified frame;
    and whether the send resolves or rejects, the handler resolves and its
    trace is the same. *)
Theorem onZclData_default_response (zcl : Imports) (zclData : ZclDataPayload)
    (w : World) (i : nat) (d : Device) :
  list_find (fun d => networkAddress d = zcl_networkAddress zclData) (devices w)
    = Some (i, d) ->
  let frame := zcl_frame zclData in
  exists w' published,
    onZclData zcl zclData w = (Resolved tt, w') /\
    trace w' =
      trace w ++ published ++
      (if disableDefaultResponse (frameControl (Header frame)) then []
       else [DefaultResponse i (zcl_endpoint zclData) (command_ID (getCommand frame)) 0
               (ClusterID frame)]) /\
    defaultResponses published = [] /\
    (forall kind, fst (parseCommand zcl frame) = Some kind ->
       exists m, published = [Emit (message m)] /\ msg_type m = kind) /\
    (forall outcome,
       fst (onZclData (withSendOutcome outcome zcl) zclData w) = Resolved tt /\
       trace (snd (onZclData (withSendOutcome outcome zcl) zclData w)) = trace w').
Proof.
  intros Hfind frame.
  destruct (onZclData_known_device zcl zclData w i d Hfind)
    as (w' & d' & Hrun & _ & _ & _ & _ & Htrace).
  fold frame in Htrace.
  exists w'. eexists. split; [exact Hrun|]. split; [exact Htrace|].
  repeat split.
  - destruct (fst (parseCommand zcl frame)); reflexivity.
  - intros kind Hkind. rewrite Hkind. eauto.
  - destruct (onZclData_known_device (withSendOutcome outcome zcl) zclData w i d Hfind)
      as (w2 & d2 & Hrun2 & _). now rewrite Hrun2.
  - destruct (onZclData_known_device (withSendOutcome outcome zcl) zclData w i d Hfind)
      as (w2 & d2 & Hrun2 & _ & _ & _ & _ & Htrace2).
    rewrite Hrun2. simpl. rewrite Htrace2, Htrace. reflexivity.
Qed.

Lemma onZclData_default_response_witness :
  exists w' published,
    onZclData Sample.imports (Sample.incoming 1 Sample.reportX) Sample.interviewedOk
      = (Resolved tt, w') /\
    trace w' =
      trace Sample.interviewedOk ++ published ++ [DefaultResponse 0%nat 1 10 0 6] /\
    defaultResponses published = [] /\
    (exists m, published = [Emit (message m)] /\ msg_type m = attributeReport) /\
    trace (snd (onZclData (withSendOutcome (fun _ _ _ _ _ => true) Sample.imports)
                  (Sample.incoming 1 Sample.reportX) Sample.interviewedOk)) = trace w'.
Proof.
  destruct (onZclData_default_response Sample.imports
              (Sample.incoming 1 Sample.reportX) Sample.interviewedOk 0%nat
              {| deviceType := None; ieeeAddr := "0xAA"; networkAddress := 1;
                 manufacturerID := None; manufacturerName := None;
                 powerSource := None; modelID := VUndefined; endpoints := [];
                 interviewState := interview_ok |} eq_refl)
    as (w' & published & Hrun & Htrace & Hnone & Hmsg & Hany).
  exists w', published. split; [exact Hrun|]. split; [exact Htrace|].
  split; [exact Hnone|]. split; [apply Hmsg; reflexivity|]. apply Hany.
Defined.

(** C3 as first stated fails: a frame from a network address that no
    device has asks for a default response (its header does not disable
    it), and none is attempted; the trace does not move. *)
Lemma unknown_device_gets_no_default_response :
  let zclData := Sample.incoming 5 Sample.reportX in
  disableDefaultResponse (frameControl (Header (zcl_frame zclData))) = false /\
  trace (snd (onZclData Sample.imports zclData Sample.interviewing)) =
    trace Sample.interviewing /\
  defaultResponses (trace (snd (onZclData Sample.imports zclData Sample.interviewing)))
    = [] /\
  ~ (forall (zcl : Imports) (zclData : ZclDataPayload) (w : World),
       disableDefaultResponse (frameControl (Header (zcl_frame zclData))) = false ->
       exists a, In a (defaultResponses (trace (snd (onZclData zcl zclData w))))).
Proof.
  repeat split.
  intros Hall.
  destruct (Hall Sample.imports (Sample.incoming 5 Sample.reportX) Sample.interviewing
              eq_refl) as [a Ha].
  exact Ha.
Qed.

(** C6: for a frame from a device the store knows, when the stored model
    id is unset ([!device.get('modelID')]) and the frame is an attribute
    report or a read response whose payload has a model id ([data.modelId]
    is truthy), the device ends with that model id; when the stored model id
    is set, the device ends with the model id it had, whatever the frame
    carries. *)
Theorem modelID_backfill_once (zcl : Imports) (zclData : ZclDataPayload)
    (w : World) (i : nat) (d : Device) :
  list_find (fun d => networkAddress d = zcl_networkAddress zclData) (devices w)
    = Some (i, d) ->
  let frame := zcl_frame zclData in
  exists w' d',
    onZclData zcl zclData w = (Resolved tt, w') /\
    devices w' !! i = Some d' /\
    ieeeAddr d' = ieeeAddr d /\
    (truthy (modelID d) = false ->
     frameType (frameControl (Header frame)) = GLOBAL ->
     commandIdentifier (Header frame) = Foundation_report_ID zcl \/
     commandIdentifier (Header frame) = Foundation_readRsp_ID zcl ->
     truthy (prop (attributeList zcl frame) "modelId") = true ->
     modelID d' = prop (attributeList zcl frame) "modelId") /\
    (truthy (modelID d) = true -> modelID d' = modelID d).
Proof.
  intros Hfind frame.
  destruct (onZclData_known_device zcl zclData w i d Hfind)
    as (w' & d' & Hrun & Hdevices & Hieee & _ & Hmodel & _).
  fold frame in Hmodel.
  destruct (find_lookup _ _ _ _ Hfind) as [Hat _].
  exists w', d'. split; [exact Hrun|]. split.
  { rewrite Hdevices. apply list_lookup_insert_eq. now apply lookup_lt_Some with d. }
  split; [exact Hieee|]. split.
  - intros Hunset Hglobal Hid Htruthy. rewrite Hmodel, Hunset.
    assert (Hparse : parseCommand zcl frame = (Some attributeReport, Some (attributeList zcl frame))
                     \/ parseCommand zcl frame = (Some readResponse, Some (attributeList zcl frame))).
    { unfold parseCommand. rewrite Hglobal.
      destruct (commandIdentifier (Header frame) =? Foundation_report_ID zcl) eqn:Hrep;
        [now left|].
      destruct Hid as [Hid|Hid].
      - apply Z.eqb_neq in Hrep. contradiction.
      - rewrite Hid, Z.eqb_refl. now right. }
    destruct Hparse as [Hparse|Hparse]; rewrite Hparse; simpl; now rewrite Htruthy.
  - intros Hset. rewrite Hmodel, Hset, andb_false_r. reflexivity.
Qed.

Lemma modelID_backfill_once_witness :
  (exists w' d',
     onZclData Sample.imports (Sample.incoming 1 Sample.reportX) Sample.interviewedOk
       = (Resolved tt, w') /\
     devices w' !! 0%nat = Some d' /\ modelID d' = VStr "X") /\
  (exists w' d',
     onZclData Sample.imports (Sample.incoming 1 Sample.reportY) Sample.reportedX
       = (Resolved tt, w') /\
     devices w' !! 0%nat = Some d' /\ modelID d' = VStr "X").
Proof.
  split.
  - destruct (modelID_backfill_once Sample.imports (Sample.incoming 1 Sample.reportX)
                Sample.interviewedOk 0%nat _ eq_refl)
      as (w' & d' & Hrun & Hat & _ & Hfill & _).
    exists w', d'. split; [exact Hrun|]. split; [exact Hat|].
    apply Hfill; [reflexivity|reflexivity|now left|reflexivity].
  - destruct (modelID_backfill_once Sample.imports (Sample.incoming 1 Sample.reportY)
                Sample.reportedX 0%nat _ eq_refl)
      as (w' & d' & Hrun & Hat & _ & _ & Hkeep).
    exists w', d'. split; [exact Hrun|]. split; [exact Hat|].
    apply Hkeep. reflexivity.
Defined.

(** ** The specification's two scenarios *)

(** "0xAA" joins at network address 1 and its interview succeeds:
    [deviceJoined], then the interview's start and its outcome; the store
    holds one device, with that hardware address. *)
Example scenario_join :
  trace Sample.interviewedOk =
    [Emit (deviceJoined 0%nat); Emit (deviceInterview started 0%nat);
     Emit (deviceInterview successful 0%nat)] /\
  ieeeAddr <$> devices Sample.interviewedOk = ["0xAA"].
Proof. split; reflexivity. Qed.

(** A report carrying model id "X" from that device: one message of kind
    [attributeReport], the model id stored, one default response. *)
Example scenario_report :
  (msg_type <$> omap (fun e => match e with message m => Some m | _ => None end)
                  (events (drop 3 (trace Sample.reportedX)))) = [attributeReport] /\
  modelID <$> devices Sample.reportedX = [VStr "X"] /\
  defaultResponses (trace Sample.reportedX) = [DefaultResponse 0%nat 1 10 0 6].
Proof. repeat split. Qed.

(** * Further properties *)

(** ** Joining, case by case *)

Lemma sameRuntime_refl (w : World) : sameRuntime w w.
Proof. repeat split. Qed.

Lemma sameRuntime_trans (w1 w2 w3 : World) :
  sameRuntime w1 w2 -> sameRuntime w2 w3 -> sameRuntime w1 w3.
Proof.
  unfold sameRuntime. intros (?&?&?&?&?) (?&?&?&?&?). repeat split; congruence.
Qed.

(** A join for a hardware address the store does not have. *)
Lemma onDeviceJoined_unknown (payload : DeviceJoinedPayload) (w : World) :
  Forall (fun d => ieeeAddr d <> joined_ieeeAddr payload) (devices w) ->
  exists w',
    Controller.onDeviceJoined payload w =
      (Resolved (Controller.AwaitingInterview (length (devices w))), w') /\
    devices w' =
      devices w ++
      [{| deviceType := None; ieeeAddr := joined_ieeeAddr payload;
          networkAddress := joined_networkAddress payload;
          manufacturerID := None; manufacturerName := None; powerSource := None;
          modelID := VUndefined; endpoints := []; interviewState := in_progress |}] /\
    trace w' =
      trace w ++ [Emit (deviceJoined (length (devices w)));
                  Emit (deviceInterview started (length (devices w)))] /\
    sameRuntime w w'.
Proof.
  intros Hall.
  unfold Controller.onDeviceJoined, Controller.onDeviceJoined_resume,
    Device_interview, bind, Device_findByIeeeAddr, Device_create, Device_get,
    Device_update, emit, modify, ret.
  rewrite (find_none _ _ Hall). simpl.
  repeat (rewrite list_lookup_middle by reflexivity; simpl).
  rewrite insert_app_r_alt by lia. rewrite Nat.sub_diag. simpl.
  eexists. split; [reflexivity|]. simpl. repeat split.
  now rewrite <- app_assoc.
Qed.

(** A join for a hardware address the store has. *)
Lemma onDeviceJoined_known (payload : DeviceJoinedPayload) (w : World)
    (i : nat) (d : Device) :
  list_find (fun d => ieeeAddr d = joined_ieeeAddr payload) (devices w) = Some (i, d) ->
  exists w',
    Controller.onDeviceJoined payload w =
      (Resolved (match interviewState d with
                 | not_started | interview_failed => Controller.AwaitingInterview i
                 | _ => Controller.Finished
                 end), w') /\
    devices w' =
      <[i := with_interviewState (afterJoin (interviewState d))
               (with_networkAddress (joined_networkAddress payload) d)]> (devices w) /\
    trace w' =
      trace w ++ (if interviewed d then [] else [Emit (deviceInterview started i)]) /\
    sameRuntime w w'.
Proof.
  intros Hfind.
  destruct (find_lookup _ _ _ _ Hfind) as [Hat _].
  assert (Hlt : (i < length (devices w))%nat) by now apply lookup_lt_Some with d.
  unfold Controller.onDeviceJoined, Controller.onDeviceJoined_resume,
    Device_interview, bind, Device_findByIeeeAddr, Device_create, Device_get,
    Device_update, emit, modify, ret.
  rewrite Hfind. simpl. rewrite Hat. simpl.
  unfold interviewed, afterJoin.
  destruct d as [ty ieee nwk mid mname pw model eps state]. simpl in *.
  destruct (nwk =? joined_networkAddress payload) eqn:Hnwk; simpl;
    [apply Z.eqb_eq in Hnwk; subst nwk|];
    destruct state;
    repeat (first [ rewrite Hat
                  | rewrite list_lookup_insert_eq by (rewrite ?length_insert; exact Hlt) ];
            simpl).
  all: eexists; (split; [reflexivity|]); simpl.
  all: rewrite ?list_insert_insert_eq.
  all: (split; [first [reflexivity | symmetry; apply list_insert_id; exact Hat]|]).
  all: rewrite ?app_nil_r; repeat split.
Qed.

(** The end of a running interview. *)
Lemma interviewEnds_at (device : nat) (ok : bool) (w : World) (d : Device) :
  devices w !! device = Some d ->
  exists w',
    Controller.interviewEnds device ok w = (Resolved tt, w') /\
    devices w' =
      <[device := with_interviewState (if ok then interview_ok else interview_failed) d]>
        (devices w) /\
    trace w' =
      trace w ++ [Emit (deviceInterview (if ok then successful else failed) device)] /\
    sameRuntime w w'.
Proof.
  intros Hat.
  unfold Controller.interviewEnds, Device_interview_settle, Device_update, bind, ret,
    Controller.onDeviceJoined_resume, emit, modify.
  rewrite Hat. destruct ok; simpl; eexists; repeat split.
Qed.

Lemma World_ext (w1 w2 : World) :
  devices w1 = devices w2 -> trace w1 = trace w2 -> sameRuntime w2 w1 -> w1 = w2.
Proof.
  destruct w1, w2. unfold sameRuntime. simpl. intros -> -> (-> & -> & -> & -> & ->).
  reflexivity.
Qed.



Lemma find_appended {A} (P : A -> Prop) `{forall x, Decision (P x)}
    (l : list A) (y : A) :
  Forall (fun x => ~ P x) l -> P y -> list_find P (l ++ [y]) = Some (length l, y).
Proof.
  intros Hall Hy. rewrite list_find_app_r by now apply list_find_None.
  simpl. rewrite decide_True by exact Hy. reflexivity.
Qed.

Lemma find_cases {A} (P : A -> Prop) `{forall x, Decision (P x)} (l : list A) :
  (exists i x, list_find P l = Some (i, x)) \/ Forall (fun x => ~ P x) l.
Proof.
  destruct (list_find P l) as [[i x]|] eqn:Hfind; [left; eauto|right].
  now apply list_find_None in Hfind.
Qed.

(** ** Joining: what every join does *)

(** X1: a join handled to its end with nothing in between, the
    interview it starts ending with the given outcome, never fails, never
    touches groups, timers or the admission state, and publishes exactly:
    [deviceJoined], ['started'] and the outcome for a hardware address the
    store does not have; nothing for a known device whose interview
    succeeded; one ['started'] for a known device whose interview is
    running; ['started'] and the outcome for a known device whose interview
    never started or failed. *)
Theorem join_alone_publishes (payload : DeviceJoinedPayload) (ok : bool) (w : World) :
  let outcome := if ok then successful else failed in
  exists w',
    onDeviceJoined_alone payload ok w = (Resolved tt, w') /\
    sameRuntime w w' /\
    (Forall (fun d => ieeeAddr d <> joined_ieeeAddr payload) (devices w) ->
     trace w' =
       trace w ++ [Emit (deviceJoined (length (devices w)));
                   Emit (deviceInterview started (length (devices w)));
                   Emit (deviceInterview outcome (length (devices w)))]) /\
    (forall i d,
       list_find (fun d => ieeeAddr d = joined_ieeeAddr payload) (devices w)
         = Some (i, d) ->
       trace w' =
         trace w ++
         match interviewState d with
         | interview_ok => []
         | in_progress => [Emit (deviceInterview started i)]
         | not_started | interview_failed =>
             [Emit (deviceInterview started i); Emit (deviceInterview outcome i)]
         end).
Proof.
  intros outcome. subst outcome. unfold onDeviceJoined_alone, bind.
  destruct (find_cases (fun d => ieeeAddr d = joined_ieeeAddr payload) (devices w))
    as [(i & d & Hfind)|Hall].
  - destruct (onDeviceJoined_known payload w i d Hfind)
      as (w1 & Hrun & Hdev & Htrace & Hsame).
    destruct (find_lookup _ _ _ _ Hfind) as [Hat _].
    assert (Hat1 : devices w1 !! i =
                   Some (with_interviewState (afterJoin (interviewState d))
                           (with_networkAddress (joined_networkAddress payload) d)))
      by (rewrite Hdev; apply list_lookup_insert_eq; now apply lookup_lt_Some with d).
    destruct (interviewEnds_at i ok w1 _ Hat1) as (w2 & Hrun2 & _ & Htrace2 & Hsame2).
    rewrite Hrun. unfold interviewed in Htrace.
    assert (Hnot : Forall (fun d => ieeeAddr d <> joined_ieeeAddr payload) (devices w)
                   -> False).
    { intros Hall. rewrite (find_none _ _ Hall) in Hfind. discriminate. }
    destruct (interviewState d) eqn:Hstate.
    + exists w2. split; [exact Hrun2|]. split; [now apply sameRuntime_trans with w1|].
      split; [intros Hall; now destruct (Hnot Hall)|].
      intros i' d' Hfind'. rewrite Hfind in Hfind'. injection Hfind' as <- <-.
      rewrite Hstate, Htrace2, Htrace, <- app_assoc. reflexivity.
    + exists w1. split; [reflexivity|]. split; [exact Hsame|].
      split; [intros Hall; now destruct (Hnot Hall)|].
      intros i' d' Hfind'. rewrite Hfind in Hfind'. injection Hfind' as <- <-.
      now rewrite Hstate.
    + exists w1. split; [reflexivity|]. split; [exact Hsame|].
      split; [intros Hall; now destruct (Hnot Hall)|].
      intros i' d' Hfind'. rewrite Hfind in Hfind'. injection Hfind' as <- <-.
      now rewrite Hstate.
    + exists w2. split; [exact Hrun2|]. split; [now apply sameRuntime_trans with w1|].
      split; [intros Hall; now destruct (Hnot Hall)|].
      intros i' d' Hfind'. rewrite Hfind in Hfind'. injection Hfind' as <- <-.
      rewrite Hstate, Htrace2, Htrace, <- app_assoc. reflexivity.
  - destruct (onDeviceJoined_unknown payload w Hall)
      as (w1 & Hrun & Hdev & Htrace & Hsame).
    assert (Hat1 : devices w1 !! length (devices w) =
                   Some {| deviceType := None; ieeeAddr := joined_ieeeAddr payload;
                           networkAddress := joined_networkAddress payload;
                           manufacturerID := None; manufacturerName := None;
                           powerSource := None; modelID := VUndefined;
                           endpoints := []; interviewState := in_progress |})
      by (rewrite Hdev; now apply list_lookup_middle).
    destruct (interviewEnds_at _ ok w1 _ Hat1) as (w2 & Hrun2 & _ & Htrace2 & Hsame2).
    rewrite Hrun. exists w2. split; [exact Hrun2|].
    split; [now apply sameRuntime_trans with w1|]. split.
    + intros _. rewrite Htrace2, Htrace, <- app_assoc. reflexivity.
    + intros i d Hfind. rewrite (find_none _ _ Hall) in Hfind. discriminate.
Qed.

Lemma join_alone_publishes_witness :
  exists w',
    onDeviceJoined_alone Sample.joinAA false Sample.fresh = (Resolved tt, w') /\
    trace w' = [Emit (deviceJoined 0%nat); Emit (deviceInterview started 0%nat);
                Emit (deviceInterview failed 0%nat)].
Proof.
  destruct (join_alone_publishes Sample.joinAA false Sample.fresh)
    as (w' & Hrun & _ & Hnew & _).
  exists w'. split; [exact Hrun|]. apply Hnew. apply Forall_nil. exact I.
Defined.




(** X4: a join for a known device whose interview succeeded publishes
    nothing and starts no interview; it only stores the announced network
    address, and with the same network address the world is unchanged. *)
Theorem join_of_interviewed_device_is_silent (payload : DeviceJoinedPayload)
    (w : World) (i : nat) (d : Device) :
  list_find (fun d => ieeeAddr d = joined_ieeeAddr payload) (devices w) = Some (i, d) ->
  interviewState d = interview_ok ->
  exists w',
    Controller.onDeviceJoined payload w = (Resolved Controller.Finished, w') /\
    trace w' = trace w /\
    devices w' = <[i := with_networkAddress (joined_networkAddress payload) d]> (devices w) /\
    (networkAddress d = joined_networkAddress payload -> w' = w).
Proof.
  intros Hfind Hok.
  destruct (onDeviceJoined_known payload w i d Hfind) as (w' & Hrun & Hdev & Htrace & Hsame).
  unfold interviewed in Htrace. rewrite Hok in Hrun, Hdev, Htrace. simpl in Hdev.
  rewrite app_nil_r in Htrace.
  assert (Hcell : with_interviewState interview_ok
                    (with_networkAddress (joined_networkAddress payload) d)
                  = with_networkAddress (joined_networkAddress payload) d)
    by (destruct d; simpl in *; now subst).
  rewrite Hcell in Hdev.
  exists w'. split; [exact Hrun|]. split; [exact Htrace|]. split; [exact Hdev|].
  intros Hnwk. apply World_ext; [|exact Htrace|].
  - rewrite Hdev. apply list_insert_id.
    destruct (find_lookup _ _ _ _ Hfind) as [Hat _]. rewrite Hat. f_equal.
    destruct d; simpl in *; now subst.
  - destruct Hsame as (?&?&?&?&?). repeat split; congruence.
Qed.

Lemma join_of_interviewed_device_is_silent_witness :
  exists w',
    Controller.onDeviceJoined Sample.joinAA Sample.interviewedOk
      = (Resolved Controller.Finished, w') /\
    trace w' = trace Sample.interviewedOk /\
    w' = Sample.interviewedOk.
Proof.
  destruct (join_of_interviewed_device_is_silent Sample.joinAA Sample.interviewedOk
              0%nat _ eq_refl eq_refl) as (w' & Hrun & Htrace & _ & Hsame).
  exists w'. split; [exact Hrun|]. split; [exact Htrace|]. apply Hsame. reflexivity.
Defined.

(** X5: a join for a known device whose interview never started or
    failed starts an interview: one ['started'] is published, the handler
    waits for the interview, and the device is stored as interviewing under
    the announced network address. *)
Theorem rejoin_restarts_unfinished_interview (payload : DeviceJoinedPayload)
    (w : World) (i : nat) (d : Device) :
  list_find (fun d => ieeeAddr d = joined_ieeeAddr payload) (devices w) = Some (i, d) ->
  interviewState d = not_started \/ interviewState d = interview_failed ->
  exists w' d',
    Controller.onDeviceJoined payload w = (Resolved (Controller.AwaitingInterview i), w') /\
    trace w' = trace w ++ [Emit (deviceInterview started i)] /\
    devices w' !! i = Some d' /\
    interviewState d' = in_progress /\
    networkAddress d' = joined_networkAddress payload.
Proof.
  intros Hfind Hstate.
  destruct (onDeviceJoined_known payload w i d Hfind) as (w' & Hrun & Hdev & Htrace & _).
  destruct (find_lookup _ _ _ _ Hfind) as [Hat _].
  unfold interviewed in Htrace.
  exists w'. eexists. rewrite Hdev.
  split; [|split; [|split; [apply list_lookup_insert_eq; now apply lookup_lt_Some with d|]]].
  - destruct Hstate as [Hs|Hs]; rewrite Hs in Hrun; exact Hrun.
  - destruct Hstate as [Hs|Hs]; rewrite Hs in Htrace; exact Htrace.
  - destruct Hstate as [Hs|Hs]; rewrite Hs; split; reflexivity.
Qed.

Lemma rejoin_restarts_unfinished_interview_witness :
  exists w' d',
    Controller.onDeviceJoined Sample.joinAA Sample.interviewFailed
      = (Resolved (Controller.AwaitingInterview 0%nat), w') /\
    trace w' = trace Sample.interviewFailed ++ [Emit (deviceInterview started 0%nat)] /\
    devices w' !! 0%nat = Some d' /\
    interviewState d' = in_progress /\
    networkAddress d' = joined_networkAddress Sample.joinAA.
Proof.
  apply (rejoin_restarts_unfinished_interview Sample.joinAA Sample.interviewFailed
           0%nat _ eq_refl).
  right. reflexivity.
Defined.

(** ** Frames: the device cell after a frame *)

Lemma onZclData_cell (zcl : Imports) (zclData : ZclDataPayload) (w : World)
    (i : nat) (d : Device) :
  list_find (fun d => networkAddress d = zcl_networkAddress zclData) (devices w)
    = Some (i, d) ->
  let type := fst (parseCommand zcl (zcl_frame zclData)) in
  let data := snd (parseCommand zcl (zcl_frame zclData)) in
  let model := from_option (fun kv => prop kv "modelId") VUndefined data in
  exists w',
    onZclData zcl zclData w = (Resolved tt, w') /\
    devices w' =
      <[i := with_modelID
               (if reportsAttributes type && truthy model && negb (truthy (modelID d))
                then model else modelID d)
               (with_endpoints (endpointsWith (zcl_endpoint zclData) (endpoints d)) d)]>
        (devices w) /\
    sameRuntime w w'.
Proof.
  intros Hfind type data model. subst type data model.
  destruct (find_lookup _ _ _ _ Hfind) as [Hat _].
  assert (Hlt : (i < length (devices w))%nat) by now apply lookup_lt_Some with d.
  unfold onZclData, endpointsWith.
  rewrite (bind_resolved _ _ w w (Some i))
    by (unfold Device_findByNetworkAddress; now rewrite Hfind).
  remember (zcl_endpoint zclData) as ep eqn:Hep_eq.
  destruct d as [ty ieee nwk mid mname pw stored eps state]. simpl in *.
  destruct (parseCommand_shape zcl (zcl_frame zclData)) as [(kind & kv & Hparse)|Hparse];
    rewrite Hparse; clear Hparse; simpl fst; simpl snd;
    unfold Endpoint_defaultResponse, data_modelId, Device_createEndpoint,
      Device_getEndpoint, try_catch, bind, Device_get, Device_update, emit, modify,
      throw, ret;
    rewrite Hat; simpl;
    destruct (list_find (fun e => ID e = ep) eps) as [[j [id]]|] eqn:Hep;
    try (destruct (find_lookup _ _ _ _ Hep) as [_ Hid]; simpl in Hid; subst id).
  all: simpl.
  all: try destruct kind as [| |name]; simpl.
  all: try destruct (truthy (prop kv "modelId")) eqn:Hmodel; simpl.
  all: try destruct (truthy stored) eqn:Hstored; simpl.
  all: destruct (disableDefaultResponse _) eqn:Hdis; simpl.
  all: repeat (first [ rewrite Hat
                     | rewrite list_lookup_insert_eq by (rewrite ?length_insert; exact Hlt)
                     | rewrite (find_endpoint_created _ _ Hep)
                     | rewrite Hep
                     | rewrite Hstored
                     | rewrite Hdis ]; simpl).
  all: try destruct (defaultResponse_resolves zcl _ _ _ _ _); simpl.
  all: eexists; (split; [reflexivity|]); simpl.
  all: rewrite ?list_insert_insert_eq.
  all: (split; [first [reflexivity | symmetry; apply list_insert_id; exact Hat]|]).
  all: repeat split.
Qed.

(** ** Frames: what every frame does *)

Lemma endpointsWith_has (ep : Z) (eps : list Endpoint) :
  {| ID := ep |} ∈ endpointsWith ep eps.
Proof.
  unfold endpointsWith.
  destruct (list_find (fun e => ID e = ep) eps) as [[j [id]]|] eqn:Hep.
  - destruct (find_lookup _ _ _ _ Hep) as [Hj Hid]. simpl in Hid. subst id.
    apply list_elem_of_lookup. eauto.
  - apply elem_of_app. right. apply list_elem_of_here.
Qed.

(** X6: [onZclData] resolves for every frame, every world and every fate
    of the default response; it never touches groups, timers or the
    admission state, never adds or removes a device, and attempts at most
    one default response. *)
Theorem onZclData_never_rejects (zcl : Imports) (zclData : ZclDataPayload) (w : World) :
  fst (onZclData zcl zclData w) = Resolved tt /\
  sameRuntime w (snd (onZclData zcl zclData w)) /\
  length (devices (snd (onZclData zcl zclData w))) = length (devices w) /\
  (length (defaultResponses (trace (snd (onZclData zcl zclData w))))
   <= S (length (defaultResponses (trace w))))%nat.
Proof.
  destruct (find_cases (fun d => networkAddress d = zcl_networkAddress zclData) (devices w))
    as [(i & d & Hfind)|Hall].
  - destruct (onZclData_cell zcl zclData w i d Hfind) as (w' & Hrun & Hdev & Hsame).
    destruct (onZclData_known_device zcl zclData w i d Hfind)
      as (w2 & d2 & Hrun2 & _ & _ & _ & _ & Htrace).
    rewrite Hrun in Hrun2. injection Hrun2 as <-.
    rewrite Hrun. simpl. split; [reflexivity|]. split; [exact Hsame|].
    split; [rewrite Hdev; apply length_insert|].
    rewrite Htrace. unfold defaultResponses. rewrite !List.filter_app, !length_app.
    destruct (fst (parseCommand zcl (zcl_frame zclData)));
      destruct (disableDefaultResponse _); simpl; lia.
  - assert (Hrun : onZclData zcl zclData w = (Resolved tt, w)).
    { unfold onZclData. rewrite (bind_resolved _ _ w w None); [reflexivity|].
      unfold Device_findByNetworkAddress. now rewrite (find_none _ _ Hall). }
    rewrite Hrun. simpl. split; [reflexivity|]. split; [apply sameRuntime_refl|].
    split; [reflexivity|lia].
Qed.

(** X7: after a frame from a known device the device has the endpoint
    the frame names; an endpoint it already had is not created again (the
    endpoints are unchanged), a missing one is added once at the end. *)
Theorem onZclData_creates_endpoint_once (zcl : Imports) (zclData : ZclDataPayload)
    (w : World) (i : nat) (d : Device) :
  list_find (fun d => networkAddress d = zcl_networkAddress zclData) (devices w)
    = Some (i, d) ->
  exists w' d',
    onZclData zcl zclData w = (Resolved tt, w') /\
    devices w' !! i = Some d' /\
    Exists (fun e => ID e = zcl_endpoint zclData) (endpoints d') /\
    (Exists (fun e => ID e = zcl_endpoint zclData) (endpoints d) ->
     endpoints d' = endpoints d) /\
    (Forall (fun e => ID e <> zcl_endpoint zclData) (endpoints d) ->
     endpoints d' = endpoints d ++ [{| ID := zcl_endpoint zclData |}]).
Proof.
  intros Hfind.
  destruct (onZclData_cell zcl zclData w i d Hfind) as (w' & Hrun & Hdev & _).
  destruct (find_lookup _ _ _ _ Hfind) as [Hat _].
  exists w'. eexists. split; [exact Hrun|]. rewrite Hdev.
  split; [apply list_lookup_insert_eq; now apply lookup_lt_Some with d|]. simpl.
  unfold endpointsWith.
  destruct (find_cases (fun e => ID e = zcl_endpoint zclData) (endpoints d))
    as [(j & e & Hep)|Hnone].
  - rewrite Hep. destruct (find_lookup _ _ _ _ Hep) as [Hj Hid].
    split; [|split; [reflexivity|]].
    + apply Exists_exists. exists e. split; [|exact Hid].
      apply list_elem_of_lookup. eauto.
    + intros Hall. exfalso. rewrite Forall_forall in Hall.
      apply (Hall e); [|exact Hid]. apply list_elem_of_lookup. eauto.
  - rewrite (find_none _ _ Hnone). split; [|split; [|reflexivity]].
    + apply Exists_app. right. now apply Exists_cons_hd.
    + intros Hex. exfalso. destruct (find_some _ _ Hex) as (j & e & Hsome).
      rewrite (find_none _ _ Hnone) in Hsome. discriminate.
Qed.

Lemma onZclData_creates_endpoint_once_witness :
  exists w' d',
    onZclData Sample.imports (Sample.incoming 1 Sample.reportY) Sample.reportedX
      = (Resolved tt, w') /\
    devices w' !! 0%nat = Some d' /\
    endpoints d' = [{| ID := 1 |}].
Proof.
  destruct (onZclData_creates_endpoint_once Sample.imports
              (Sample.incoming 1 Sample.reportY) Sample.reportedX 0%nat _ eq_refl)
    as (w' & d' & Hrun & Hat & _ & Hkept & _).
  exists w', d'. split; [exact Hrun|]. split; [exact Hat|].
  apply Hkept. apply Exists_cons_hd. reflexivity.
Defined.

(** X8: a frame from a known device rewrites that device's cell only,
    keeping its hardware address, network address, interview state, type
    and manufacturer id; every other device is unchanged, and no
    [deviceJoined] or interview event is published. *)
Theorem onZclData_touches_only_its_device (zcl : Imports) (zclData : ZclDataPayload)
    (w : World) (i : nat) (d : Device) :
  list_find (fun d => networkAddress d = zcl_networkAddress zclData) (devices w)
    = Some (i, d) ->
  exists w' d',
    onZclData zcl zclData w = (Resolved tt, w') /\
    devices w' = <[i := d']> (devices w) /\
    ieeeAddr d' = ieeeAddr d /\ networkAddress d' = networkAddress d /\
    interviewState d' = interviewState d /\ deviceType d' = deviceType d /\
    manufacturerID d' = manufacturerID d /\
    (forall j, j <> i -> devices w' !! j = devices w !! j) /\
    joinedEvents (trace w') = joinedEvents (trace w) /\
    (forall device, interviewEvents device (trace w') = interviewEvents device (trace w)).
Proof.
  intros Hfind.
  destruct (onZclData_cell zcl zclData w i d Hfind) as (w' & Hrun & Hdev & _).
  destruct (onZclData_known_device zcl zclData w i d Hfind)
    as (w2 & d2 & Hrun2 & _ & _ & _ & _ & Htrace).
  rewrite Hrun in Hrun2. injection Hrun2 as <-.
  exists w'. eexists. split; [exact Hrun|]. split; [exact Hdev|].
  repeat split.
  - intros j Hne. rewrite Hdev. now apply list_lookup_insert_ne.
  - rewrite Htrace. unfold joinedEvents. rewrite !omap_app.
    destruct (fst (parseCommand zcl (zcl_frame zclData)));
      destruct (disableDefaultResponse _); simpl; now rewrite app_nil_r.
  - intros device. rewrite Htrace. unfold interviewEvents. rewrite !omap_app.
    destruct (fst (parseCommand zcl (zcl_frame zclData)));
      destruct (disableDefaultResponse _); simpl; now rewrite app_nil_r.
Qed.

Lemma onZclData_touches_only_its_device_witness :
  exists w' d',
    onZclData Sample.imports (Sample.incoming 1 Sample.reportX) Sample.interviewedOk
      = (Resolved tt, w') /\
    devices w' = <[0%nat := d']> (devices Sample.interviewedOk) /\
    ieeeAddr d' = "0xAA" /\ interviewState d' = interview_ok.
Proof.
  destruct (onZclData_touches_only_its_device Sample.imports
              (Sample.incoming 1 Sample.reportX) Sample.interviewedOk 0%nat _ eq_refl)
    as (w' & d' & Hrun & Hdev & Hieee & _ & Hstate & _).
  exists w', d'. split; [exact Hrun|]. split; [exact Hdev|]. split; assumption.
Defined.

(** X9: a frame from a known device that is neither global nor
    specific, or global with a command id that is neither the report nor
    the read-response id, publishes no event and leaves the model id alone,
    and is still answered with a default response unless its header
    disables it. *)
Theorem unclassified_frame_is_still_answered (zcl : Imports) (zclData : ZclDataPayload)
    (w : World) (i : nat) (d : Device) :
  list_find (fun d => networkAddress d = zcl_networkAddress zclData) (devices w)
    = Some (i, d) ->
  let frame := zcl_frame zclData in
  (exists n, frameType (frameControl (Header frame)) = otherFrameType n) \/
  (frameType (frameControl (Header frame)) = GLOBAL /\
   commandIdentifier (Header frame) <> Foundation_report_ID zcl /\
   commandIdentifier (Header frame) <> Foundation_readRsp_ID zcl) ->
  exists w' d',
    onZclData zcl zclData w = (Resolved tt, w') /\
    trace w' =
      trace w ++
      (if disableDefaultResponse (frameControl (Header frame)) then []
       else [DefaultResponse i (zcl_endpoint zclData) (command_ID (getCommand frame)) 0
               (ClusterID frame)]) /\
    devices w' !! i = Some d' /\ modelID d' = modelID d.
Proof.
  intros Hfind frame Hkind.
  assert (Hparse : parseCommand zcl frame = (None, None)).
  { unfold parseCommand. destruct Hkind as [[n Hn]|(Hglobal & Hrep & Hrsp)].
    - now rewrite Hn.
    - rewrite Hglobal. apply Z.eqb_neq in Hrep, Hrsp. now rewrite Hrep, Hrsp. }
  destruct (onZclData_known_device zcl zclData w i d Hfind)
    as (w' & d' & Hrun & Hdev & _ & _ & Hmodel & Htrace).
  fold frame in Hmodel, Htrace. rewrite Hparse in Hmodel, Htrace. simpl in Hmodel, Htrace.
  destruct (find_lookup _ _ _ _ Hfind) as [Hat _].
  exists w', d'. split; [exact Hrun|]. split; [exact Htrace|].
  split; [|exact Hmodel].
  rewrite Hdev. apply list_lookup_insert_eq. now apply lookup_lt_Some with d.
Qed.

Lemma unclassified_frame_is_still_answered_witness :
  exists w' d',
    onZclData Sample.imports (Sample.incoming 1 Sample.writeRsp) Sample.interviewedOk
      = (Resolved tt, w') /\
    trace w' = trace Sample.interviewedOk ++ [DefaultResponse 0%nat 1 4 0 6] /\
    devices w' !! 0%nat = Some d' /\ modelID d' = VUndefined.
Proof.
  apply (unclassified_frame_is_still_answered Sample.imports
           (Sample.incoming 1 Sample.writeRsp) Sample.interviewedOk 0%nat _ eq_refl).
  right. repeat split; simpl; lia.
Defined.

(** X10: a frame from a known device publishes at most one event; the
    message names that device, carries the frame's link quality and group
    id, and its endpoint is present with the id the frame names, also when
    that endpoint was created by this very frame; the endpoint is one of the
    device's afterwards. *)
Theorem message_event_fields (zcl : Imports) (zclData : ZclDataPayload)
    (w : World) (i : nat) (d : Device) :
  list_find (fun d => networkAddress d = zcl_networkAddress zclData) (devices w)
    = Some (i, d) ->
  exists w' new d',
    onZclData zcl zclData w = (Resolved tt, w') /\
    trace w' = trace w ++ new /\
    devices w' !! i = Some d' /\
    (length (events new) <= 1)%nat /\
    forall e, e ∈ events new ->
      exists m, e = message m /\
        msg_device m = i /\
        msg_endpoint m = Some {| ID := zcl_endpoint zclData |} /\
        {| ID := zcl_endpoint zclData |} ∈ endpoints d' /\
        msg_linkquality m = zcl_linkquality zclData /\
        msg_groupID m = zcl_groupID zclData.
Proof.
  intros Hfind.
  destruct (onZclData_cell zcl zclData w i d Hfind) as (w' & Hrun & Hdev & _).
  destruct (onZclData_known_device zcl zclData w i d Hfind)
    as (w2 & d2 & Hrun2 & _ & _ & _ & _ & Htrace).
  rewrite Hrun in Hrun2. injection Hrun2 as <-.
  destruct (find_lookup _ _ _ _ Hfind) as [Hat _].
  exists w'. eexists. eexists. split; [exact Hrun|]. split; [exact Htrace|].
  split; [rewrite Hdev; apply list_lookup_insert_eq; now apply lookup_lt_Some with d|].
  rewrite events_app.
  replace (events (if disableDefaultResponse (frameControl (Header (zcl_frame zclData)))
                   then [] else _)) with (@nil Event)
    by (destruct (disableDefaultResponse _); reflexivity).
  rewrite app_nil_r.
  destruct (fst (parseCommand zcl (zcl_frame zclData))) as [kind|]; simpl.
  - split; [lia|]. intros e He. apply list_elem_of_singleton in He. subst e.
    eexists. split; [reflexivity|]. simpl. repeat split.
    apply endpointsWith_has.
  - split; [lia|]. intros e He. now apply elem_of_nil in He.
Qed.

Lemma message_event_fields_witness :
  exists w' new d',
    onZclData Sample.imports (Sample.incoming 1 Sample.commandOn) Sample.interviewedOk
      = (Resolved tt, w') /\
    trace w' = trace Sample.interviewedOk ++ new /\
    devices w' !! 0%nat = Some d' /\
    (length (events new) <= 1)%nat.
Proof.
  destruct (message_event_fields Sample.imports
              (Sample.incoming 1 Sample.commandOn) Sample.interviewedOk 0%nat _ eq_refl)
    as (w' & new & d' & Hrun & Htrace & Hat & Hlen & _).
  exists w', new, d'. repeat split; assumption.
Defined.

(** ** Admission control: disabling *)

Lemma permitJoin_false_run (w : World) :
  Controller.permitJoin false w =
    (Resolved tt,
     match permitJoinTimer w with
     | RTimer h =>
         set_permitJoinTimer RNull
           (set_timers (filter (fun t => handle t <> h) (timers w)) (nextHandle w)
              (log_action (AdapterPermitJoin 0) w))
     | RMethod _ => set_permitJoinTimer RNull (log_action (AdapterPermitJoin 0) w)
     | _ => log_action (AdapterPermitJoin 0) w
     end).
Proof.
  unfold Controller.permitJoin, bind, get_world.
  change (Controller.this_member w "permitJoinTimer") with (permitJoinTimer w).
  destruct (permitJoinTimer w); reflexivity.
Qed.

Lemma filter_all {A} (P : A -> Prop) `{forall x, Decision (P x)} (l : list A) :
  Forall P l -> filter P l = l.
Proof.
  induction 1 as [|x l Hx Hl IH]; [reflexivity|].
  rewrite filter_cons_True by exact Hx. now rewrite IH.
Qed.

(** X11: in a world where the field [permitJoinTimer] and the armed
    renewal timers agree ([admissionInvariant]), [permitJoin(false)] hands
    the adapter a permit-join of 0; afterwards the field is falsy and no
    renewal timer is armed; when admission was already disabled the timers
    are unchanged.  Devices and groups are not touched. *)
Theorem permitJoin_false_disables (w : World) :
  admissionInvariant w ->
  exists w',
    Controller.permitJoin false w = (Resolved tt, w') /\
    trace w' = trace w ++ [AdapterPermitJoin 0] /\
    truthyRef (permitJoinTimer w') = false /\
    renewalTimers w' = [] /\
    (truthyRef (permitJoinTimer w) = false -> timers w' = timers w) /\
    devices w' = devices w /\ groups w' = groups w.
Proof.
  intros (_ & Hoff & Hon). rewrite permitJoin_false_run. eexists. split; [reflexivity|].
  destruct (permitJoinTimer w) as [| |h|m] eqn:Hp; simpl in *; rewrite ?Hp; simpl.
  - repeat split; try reflexivity. now apply Hoff.
  - repeat split; try reflexivity. now apply Hoff.
  - destruct (Hon eq_refl) as (h' & Hh & Hall). injection Hh as <-.
    repeat split; try reflexivity; try discriminate.
    unfold renewalTimers. simpl. rewrite removal_keeps_renewals.
    now apply removal_clears.
  - destruct (Hon eq_refl) as (h' & Hh & _). discriminate.
Qed.

Lemma permitJoin_false_disables_witness :
  exists w',
    Controller.permitJoin false Sample.admitting = (Resolved tt, w') /\
    trace w' = trace Sample.admitting ++ [AdapterPermitJoin 0] /\
    truthyRef (permitJoinTimer w') = false /\
    renewalTimers w' = [].
Proof.
  destruct (permitJoin_false_disables Sample.admitting)
    as (w' & Hrun & Htrace & Hoff & Hnone & _).
  - unfold admissionInvariant. split; [simpl; lia|]. split; [discriminate|].
    intros _. exists 0%nat. split; [reflexivity|].
    apply Forall_cons. split; [reflexivity|apply Forall_nil; exact I].
  - exists w'. repeat split; assumption.
Defined.

(** X12: enabling then disabling admission, from a disabled state whose
    timers do not use the next handle, hands the adapter 254 then 0 and
    leaves the timers exactly as they were, with [permitJoinTimer] reset to
    [null]. *)
Theorem permitJoin_enable_then_disable (w : World) :
  truthyRef (permitJoinTimer w) = false ->
  Forall (fun t => handle t <> nextHandle w) (timers w) ->
  exists w',
    bind (Controller.permitJoin true) (fun _ => Controller.permitJoin false) w
      = (Resolved tt, w') /\
    trace w' = trace w ++ [AdapterPermitJoin 254; AdapterPermitJoin 0] /\
    timers w' = timers w /\
    permitJoinTimer w' = RNull /\
    devices w' = devices w /\ groups w' = groups w.
Proof.
  intros Hoff Hfresh. unfold bind at 1.
  rewrite permitJoin_when_disabled by exact Hoff.
  rewrite permitJoin_false_run. simpl. eexists. split; [reflexivity|]. simpl.
  rewrite filter_app, (filter_all _ _ Hfresh).
  rewrite filter_cons_False by (simpl; intros Hne; now apply Hne).
  rewrite filter_nil, app_nil_r, <- app_assoc. repeat split.
Qed.

Lemma permitJoin_enable_then_disable_witness :
  exists w',
    bind (Controller.permitJoin true) (fun _ => Controller.permitJoin false) Sample.started
      = (Resolved tt, w') /\
    trace w' = trace Sample.started ++ [AdapterPermitJoin 254; AdapterPermitJoin 0] /\
    timers w' = timers Sample.started /\
    permitJoinTimer w' = RNull.
Proof.
  destruct (permitJoin_enable_then_disable Sample.started)
    as (w' & Hrun & Htrace & Htimers & Hnull & _).
  - reflexivity.
  - apply Forall_cons. split; [simpl; lia|apply Forall_nil; exact I].
  - exists w'. repeat split; assumption.
Defined.



(** X20: a [permitJoin(true)] call that runs to its end with no other
    call in between: with admission disabled it hands the adapter a
    permit-join of 254 and arms one recurring timer of period 200 * 1000 ms
    whose callback hands the adapter the same command, and stores the timer
    in [permitJoinTimer]; with admission enabled it changes nothing. *)
Theorem permitJoin_true_arms_or_nothing (w : World) :
  (truthyRef (permitJoinTimer w) = false ->
   exists w',
     Controller.permitJoin true w = (Resolved tt, w') /\
     trace w' = trace w ++ [AdapterPermitJoin 254] /\
     timers w' = timers w ++ [renewalTimer (nextHandle w)] /\
     permitJoinTimer w' = RTimer (nextHandle w) /\
     recurring (renewalTimer (nextHandle w)) = true /\
     delay_ms (renewalTimer (nextHandle w)) = 200000 /\
     forall w1, Controller.runTask (task (renewalTimer (nextHandle w))) w1 =
                (Resolved tt, log_action (AdapterPermitJoin 254) w1)) /\
  (truthyRef (permitJoinTimer w) = true ->
   Controller.permitJoin true w = (Resolved tt, w)).
Proof.
  split.
  - intros Hoff. eexists. split; [now apply permitJoin_when_disabled|].
    repeat split.
  - apply permitJoin_when_enabled.
Qed.

Lemma permitJoin_true_arms_or_nothing_witness :
  (exists w',
     Controller.permitJoin true Sample.started = (Resolved tt, w') /\
     trace w' = trace Sample.started ++ [AdapterPermitJoin 254] /\
     timers w' = timers Sample.started ++ [renewalTimer 1]) /\
  Controller.permitJoin true Sample.admitting = (Resolved tt, Sample.admitting).
Proof.
  split.
  - destruct (permitJoin_true_arms_or_nothing Sample.started) as [Hoff _].
    destruct (Hoff eq_refl) as (w' & Hrun & Htrace & Htimers & _).
    exists w'. repeat split; assumption.
  - destruct (permitJoin_true_arms_or_nothing Sample.admitting) as [_ Hon].
    apply Hon. reflexivity.
Defined.

(** X21: when every call of [permitJoin] has ended before the next call
    or timer firing, a world where [permitJoinTimer] and the armed renewal
    timers agree stays such a world: at most one renewal timer is armed,
    none when the field is unset, and no call is left waiting. *)
Theorem awaited_permitJoin_keeps_one_timer (calls : list (bool + nat)) (w : World) :
  admissionInvariant w ->
  let st := admissionRun (awaited calls) (w, 0%nat) in
  admissionInvariant (fst st) /\
  (length (renewalTimers (fst st)) <= 1)%nat /\
  snd st = 0%nat.
Proof.
  intros Hinv st. subst st.
  destruct (awaited_keeps_invariant calls w Hinv) as [Hinv' Hnone].
  split; [exact Hinv'|]. split; [|exact Hnone]. now destruct Hinv'.
Qed.

Lemma awaited_permitJoin_keeps_one_timer_witness :
  let st := admissionRun (awaited [inl true; inl true; inr 1%nat; inl false; inl true])
              (Sample.started, 0%nat) in
  admissionInvariant (fst st) /\
  (length (renewalTimers (fst st)) <= 1)%nat /\
  snd st = 0%nat.
Proof.
  apply awaited_permitJoin_keeps_one_timer.
  unfold admissionInvariant. split; [simpl; lia|]. split; [reflexivity|discriminate].
Defined.

(** ** Groups *)

(** X14: [getOrCreateGroup(g)] always yields the group with id [g],
    which is in the store afterwards; it creates it only when no group had
    that id and otherwise changes nothing; a second call changes nothing
    and yields the same group.  Devices, timers and trace are untouched. *)
Theorem getOrCreateGroup_idempotent (g : Z) (w : World) :
  exists w',
    Controller.getOrCreateGroup g w = (Resolved {| groupID := g |}, w') /\
    {| groupID := g |} ∈ groups w' /\
    (Exists (fun x => groupID x = g) (groups w) -> w' = w) /\
    (Forall (fun x => groupID x <> g) (groups w) ->
     groups w' = groups w ++ [{| groupID := g |}]) /\
    devices w' = devices w /\ trace w' = trace w /\ timers w' = timers w /\
    Controller.getOrCreateGroup g w' = (Resolved {| groupID := g |}, w').
Proof.
  unfold Controller.getOrCreateGroup, bind, Group_findByGroupID, Group_create, ret.
  destruct (find_cases (fun x => groupID x = g) (groups w)) as [(j & [id] & Hfind)|Hnone].
  - destruct (find_lookup _ _ _ _ Hfind) as [Hj Hid]. simpl in Hid. subst id.
    rewrite Hfind. simpl. eexists. split; [reflexivity|].
    split; [apply list_elem_of_lookup; eauto|]. split; [reflexivity|].
    split.
    + intros Hall. exfalso. rewrite Forall_forall in Hall.
      apply (Hall {| groupID := g |}); [apply list_elem_of_lookup; eauto|reflexivity].
    + repeat split. now rewrite Hfind.
  - rewrite (find_none _ _ Hnone). simpl. eexists. split; [reflexivity|]. simpl.
    split; [apply elem_of_app; right; apply list_elem_of_here|].
    split.
    + intros Hex. exfalso. destruct (find_some _ _ Hex) as (j & x & Hsome).
      rewrite (find_none _ _ Hnone) in Hsome. discriminate.
    + repeat split.
      now rewrite (find_appended (fun x => groupID x = g) _ {| groupID := g |} Hnone eq_refl).
Qed.

Lemma getOrCreateGroup_idempotent_witness :
  exists w',
    Controller.getOrCreateGroup 1 Sample.fresh = (Resolved {| groupID := 1 |}, w') /\
    groups w' = groups Sample.fresh ++ [{| groupID := 1 |}].
Proof.
  destruct (getOrCreateGroup_idempotent 1 Sample.fresh) as (w' & Hrun & _ & _ & Hnew & _).
  exists w'. split; [exact Hrun|]. apply Hnew. apply Forall_nil. exact I.
Defined.

(** ** Startup: the coordinator record *)

(** X15: [start()] adds a coordinator device, built from what the
    adapter reports, exactly when the store has no device of type
    "Coordinator", and otherwise leaves the devices alone; it publishes no
    event, and a second [start()] adds no device. *)
Theorem start_ensures_one_coordinator (w : World) :
  exists w',
    Controller.start w = (Resolved tt, w') /\
    (Exists (fun d => deviceType d = Some "Coordinator") (devices w) ->
     devices w' = devices w) /\
    (Forall (fun d => deviceType d <> Some "Coordinator") (devices w) ->
     devices w' =
       devices w ++
       [{| deviceType := Some "Coordinator";
           ieeeAddr := coordinator_ieeeAddr (coordinator w);
           networkAddress := coordinator_networkAddress (coordinator w);
           manufacturerID := Some (coordinator_manufacturerID (coordinator w));
           manufacturerName := None; powerSource := None; modelID := VUndefined;
           endpoints := coordinator_endpoints (coordinator w);
           interviewState := not_started |}]) /\
    events (trace w') = events (trace w) /\
    devices (snd (Controller.start w')) = devices w'.
Proof.
  assert (Hrun : forall w0, exists w1,
            Controller.start w0 = (Resolved tt, w1) /\
            devices w1 =
              (if (length (filter (fun d => deviceType d = Some "Coordinator") (devices w0))
                   =? 0)%nat
               then devices w0 ++
                    [{| deviceType := Some "Coordinator";
                        ieeeAddr := coordinator_ieeeAddr (coordinator w0);
                        networkAddress := coordinator_networkAddress (coordinator w0);
                        manufacturerID := Some (coordinator_manufacturerID (coordinator w0));
                        manufacturerName := None; powerSource := None;
                        modelID := VUndefined;
                        endpoints := coordinator_endpoints (coordinator w0);
                        interviewState := not_started |}]
               else devices w0) /\
            events (trace w1) = events (trace w0)).
  { intros w0.
    unfold Controller.start, bind, modify, Device_findByType_length,
      adapter_getCoordinator, Device_create, setTimeout, arm, ret. simpl.
    destruct (length _ =? 0)%nat; simpl; eexists; (split; [reflexivity|]); simpl;
      (split; [reflexivity|]); rewrite <- app_assoc, events_app; simpl;
      apply app_nil_r. }
  destruct (Hrun w) as (w' & Hstart & Hdev & Hev).
  exists w'. split; [exact Hstart|].
  assert (Hhas : forall l : list Device,
            Exists (fun d => deviceType d = Some "Coordinator") l ->
            (length (filter (fun d => deviceType d = Some "Coordinator") l) =? 0)%nat
            = false).
  { intros l Hex. apply Nat.eqb_neq. apply Exists_exists in Hex as (c & Hin & Hc).
    assert (Hcin : c ∈ filter (fun d => deviceType d = Some "Coordinator") l)
      by (apply list_elem_of_filter; auto).
    destruct (filter _ l); [now apply elem_of_nil in Hcin|simpl; lia]. }
  assert (Hhasnt : forall l : list Device,
            Forall (fun d => deviceType d <> Some "Coordinator") l ->
            (length (filter (fun d => deviceType d = Some "Coordinator") l) =? 0)%nat
            = true).
  { intros l Hall. apply Nat.eqb_eq.
    destruct (filter _ l) as [|c r] eqn:Hf; [reflexivity|].
    assert (Hcin : c ∈ filter (fun d => deviceType d = Some "Coordinator") l)
      by (rewrite Hf; apply list_elem_of_here).
    apply list_elem_of_filter in Hcin as [Hc Hin].
    rewrite Forall_forall in Hall. now destruct (Hall c Hin). }
  split; [|split; [|split; [exact Hev|]]].
  - intros Hex. now rewrite Hdev, (Hhas _ Hex).
  - intros Hall. now rewrite Hdev, (Hhasnt _ Hall).
  - destruct (Hrun w') as (w2 & Hstart2 & Hdev2 & _). rewrite Hstart2. simpl.
    rewrite Hdev2, Hhas; [reflexivity|].
    rewrite Hdev. destruct (length _ =? 0)%nat eqn:Hn.
    + apply Exists_app. right. now apply Exists_cons_hd.
    + destruct (find_cases (fun d => deviceType d = Some "Coordinator") (devices w))
        as [(j & c & Hfind)|Hall].
      * destruct (find_lookup _ _ _ _ Hfind) as [Hj Hc].
        apply Exists_exists. exists c. split; [|exact Hc].
        apply list_elem_of_lookup. eauto.
      * rewrite (Hhasnt _ Hall) in Hn. discriminate.
Qed.

Lemma start_ensures_one_coordinator_witness :
  exists w',
    Controller.start Sample.fresh = (Resolved tt, w') /\
    (ieeeAddr <$> devices w') = ["0x00124b0001"] /\
    devices (snd (Controller.start w')) = devices w'.
Proof.
  destruct (start_ensures_one_coordinator Sample.fresh)
    as (w' & Hrun & _ & Hnew & _ & Hagain).
  exists w'. split; [exact Hrun|]. split; [|exact Hagain].
  rewrite Hnew; [reflexivity|]. apply Forall_nil. exact I.
Defined.

(** ** Losing the adapter *)

(** X16: whether [adapter.stop()] resolves or rejects, the disconnect
    handler resolves and publishes [adapterDisconnected] once, after the
    stop attempt; devices, groups and timers are untouched. *)
Theorem onAdapterDisconnected_always_reports (stopResolves : bool) (w : World) :
  exists w',
    onAdapterDisconnected_when stopResolves w = (Resolved tt, w') /\
    trace w' = trace w ++ [AdapterStop; Emit adapterDisconnected] /\
    devices w' = devices w /\ sameRuntime w w' /\
    Controller.onAdapterDisconnected w = onAdapterDisconnected_when true w.
Proof.
  unfold onAdapterDisconnected_when, Controller.onAdapterDisconnected, try_catch, bind,
    emit, modify, throw, ret.
  destruct stopResolves; simpl; eexists; (split; [reflexivity|]); simpl;
    rewrite <- app_assoc; repeat split.
Qed.


(** ** Handlers that overlap *)

Lemma interviewEvents_app (i : nat) (tr1 tr2 : list Action) :
  interviewEvents i (tr1 ++ tr2) = interviewEvents i tr1 ++ interviewEvents i tr2.
Proof. apply omap_app. Qed.

Lemma lifecycle_app (s : InterviewState) (l1 l2 : list InterviewStatus) :
  lifecycle s (l1 ++ l2) =
  match lifecycle s l1 with
  | Some s' => lifecycle s' l2
  | None => None
  end.
Proof.
  revert s. induction l1 as [|a l1 IH]; intros s; [reflexivity|].
  simpl. destruct s, a; auto.
Qed.


Lemma evolves_length (w w' : World) :
  evolves w w' -> (length (devices w) <= length (devices w'))%nat.
Proof.
  intros (delta & _ & Hold & _).
  destruct (decide (length (devices w) <= length (devices w'))%nat) as [|Hgt];
    [assumption|exfalso].
  destruct (lookup_lt_is_Some_2 (devices w) (length (devices w'))) as [x Hx]; [lia|].
  destruct (Hold _ _ Hx) as (x' & Hx' & _).
  apply lookup_lt_Some in Hx'. lia.
Qed.

Lemma evolves_refl (w : World) : evolves w w.
Proof.
  exists []. split; [now rewrite app_nil_r|]. split; [|split].
  - intros i x Hx. exists x. auto.
  - intros i x' Hx' Hge. apply lookup_lt_Some in Hx'. lia.
  - reflexivity.
Qed.

Lemma evolves_trans (w1 w2 w3 : World) : evolves w1 w2 -> evolves w2 w3 -> evolves w1 w3.
Proof.
  intros H12 H23.
  pose proof (evolves_length _ _ H12) as Hlen12.
  pose proof (evolves_length _ _ H23) as Hlen23.
  destruct H12 as (d1 & Ht1 & Hold1 & Hnew1 & Hout1).
  destruct H23 as (d2 & Ht2 & Hold2 & Hnew2 & Hout2).
  exists (d1 ++ d2). split; [now rewrite Ht2, Ht1, app_assoc|]. split; [|split].
  - intros i x Hx. destruct (Hold1 i x Hx) as (x' & Hx' & Hieee' & Hlife').
    destruct (Hold2 i x' Hx') as (x'' & Hx'' & Hieee'' & Hlife'').
    exists x''. split; [exact Hx''|]. split; [congruence|].
    now rewrite interviewEvents_app, lifecycle_app, Hlife'.
  - intros i x'' Hx'' Hge. rewrite interviewEvents_app, lifecycle_app.
    destruct (decide (i < length (devices w2))%nat) as [Hlt|Hnlt].
    + destruct (lookup_lt_is_Some_2 _ _ Hlt) as [x' Hx'].
      rewrite (Hnew1 i x' Hx' Hge).
      destruct (Hold2 i x' Hx') as (y & Hy & _ & Hlife). congruence.
    + rewrite (Hout1 i) by lia. simpl. apply Hnew2; [exact Hx''|lia].
  - intros i Hge. rewrite interviewEvents_app, (Hout1 i), (Hout2 i) by lia. reflexivity.
Qed.

Lemma evolves_addresses (w w' : World) :
  evolves w w' -> (ieeeAddr <$> devices w) `prefix_of` (ieeeAddr <$> devices w').
Proof.
  intros (delta & _ & Hold & _).
  assert (Hgen : forall l l' : list Device,
             (forall i x, l !! i = Some x ->
                exists x', l' !! i = Some x' /\ ieeeAddr x' = ieeeAddr x) ->
             (ieeeAddr <$> l) `prefix_of` (ieeeAddr <$> l')).
  { induction l as [|a l IH]; intros l' H; [apply prefix_nil|].
    destruct (H 0%nat a eq_refl) as (a' & Ha' & Heq).
    destruct l' as [|b l']; [discriminate|]. simpl in Ha'. injection Ha' as ->.
    simpl. rewrite Heq. apply prefix_cons. apply IH.
    intros i x Hx. exact (H (S i) x Hx). }
  apply Hgen. intros i x Hx. destruct (Hold i x Hx) as (x' & Hx' & Heq & _). eauto.
Qed.

Lemma quietChange_refl (w : World) : quietChange w w.
Proof.
  split; [apply sameRuntime_refl|]. split; [reflexivity|]. split.
  - intros i x Hx. exists x. auto.
  - exists []. split; [now rewrite app_nil_r|reflexivity].
Qed.

Lemma quietChange_trans (w1 w2 w3 : World) :
  quietChange w1 w2 -> quietChange w2 w3 -> quietChange w1 w3.
Proof.
  intros (Hr1 & Hl1 & Hc1 & d1 & Ht1 & Hq1) (Hr2 & Hl2 & Hc2 & d2 & Ht2 & Hq2).
  split; [now apply sameRuntime_trans with w2|]. split; [congruence|]. split.
  - intros i x Hx. destruct (Hc1 i x Hx) as (x' & Hx' & Hi' & Hs').
    destruct (Hc2 i x' Hx') as (x'' & Hx'' & Hi'' & Hs'').
    exists x''. repeat split; congruence.
  - exists (d1 ++ d2). split; [now rewrite Ht2, Ht1, app_assoc|].
    intros i. now rewrite interviewEvents_app, Hq1, Hq2.
Qed.

Lemma quietChange_evolves (w w' : World) : quietChange w w' -> evolves w w'.
Proof.
  intros (_ & Hlen & Hcells & delta & Htrace & Hquiet).
  exists delta. split; [exact Htrace|]. split; [|split].
  - intros i x Hx. destruct (Hcells i x Hx) as (x' & Hx' & Hieee & Hstate).
    exists x'. rewrite Hquiet. simpl. repeat split; congruence.
  - intros i x' Hx' Hge. apply lookup_lt_Some in Hx'. lia.
  - intros i _. apply Hquiet.
Qed.

(** A change of one device cell that keeps the hardware address, with the
    interview events published for that device. *)
Lemma cell_evolves (w w' : World) (j : nat) (x x' : Device) (delta : list Action) :
  devices w !! j = Some x ->
  devices w' = <[j := x']> (devices w) ->
  ieeeAddr x' = ieeeAddr x ->
  trace w' = trace w ++ delta ->
  (forall i, i <> j -> interviewEvents i delta = []) ->
  lifecycle (interviewState x) (interviewEvents j delta) = Some (interviewState x') ->
  evolves w w'.
Proof.
  intros Hat Hdev Hieee Htrace Hothers Hlife.
  assert (Hlt : (j < length (devices w))%nat) by now apply lookup_lt_Some with x.
  exists delta. split; [exact Htrace|]. split; [|split].
  - intros i y Hy. rewrite Hdev. destruct (decide (i = j)) as [->|Hne].
    + rewrite Hat in Hy. injection Hy as <-. exists x'.
      rewrite list_lookup_insert_eq by exact Hlt. auto.
    + exists y. rewrite list_lookup_insert_ne by auto. rewrite (Hothers i Hne). auto.
  - intros i y Hy Hge. rewrite Hdev in Hy. apply lookup_lt_Some in Hy.
    rewrite length_insert in Hy. lia.
  - intros i Hge. rewrite Hdev, length_insert in Hge. apply Hothers. lia.
Qed.

Lemma cell_quiet (w w' : World) (j : nat) (x x' : Device) :
  devices w !! j = Some x ->
  devices w' = <[j := x']> (devices w) ->
  ieeeAddr x' = ieeeAddr x -> interviewState x' = interviewState x ->
  trace w' = trace w -> sameRuntime w w' ->
  quietChange w w'.
Proof.
  intros Hat Hdev Hieee Hstate Htrace Hsame.
  assert (Hlt : (j < length (devices w))%nat) by now apply lookup_lt_Some with x.
  split; [exact Hsame|]. split; [now rewrite Hdev, length_insert|]. split.
  - intros i y Hy. rewrite Hdev. destruct (decide (i = j)) as [->|Hne].
    + rewrite Hat in Hy. injection Hy as <-. exists x'.
      rewrite list_lookup_insert_eq by exact Hlt. auto.
    + exists y. rewrite list_lookup_insert_ne by auto. auto.
  - exists []. split; [now rewrite app_nil_r|reflexivity].
Qed.

(** ** Rules for the steps of a handler that are quiet *)

Lemma quietly_ret {A} (d : nat) (a : A) (Q : A -> Prop) : Q a -> quietly d (ret a) Q.
Proof. intros Ha w _. exists a, w. split; [reflexivity|]. split; [apply quietChange_refl|exact Ha]. Qed.

Lemma quietly_bind {A B} (d : nat) (c : M A) (k : A -> M B)
    (Q : A -> Prop) (R : B -> Prop) :
  quietly d c Q -> (forall a, Q a -> quietly d (k a) R) -> quietly d (bind c k) R.
Proof.
  intros Hc Hk w Hd. destruct (Hc w Hd) as (a & w1 & Hrun & Hq1 & Ha).
  assert (Hd1 : (d < length (devices w1))%nat)
    by (destruct Hq1 as (_ & Hlen & _); lia).
  destruct (Hk a Ha w1 Hd1) as (b & w2 & Hrun2 & Hq2 & Hb).
  exists b, w2. split; [|split; [now apply quietChange_trans with w1|exact Hb]].
  unfold bind. now rewrite Hrun.
Qed.

Lemma quietly_weaken {A} (d : nat) (c : M A) (Q R : A -> Prop) :
  quietly d c Q -> (forall a, Q a -> R a) -> quietly d c R.
Proof.
  intros Hc Himp w Hd. destruct (Hc w Hd) as (a & w' & Hrun & Hq & Ha). eauto 6.
Qed.

Lemma quietly_get {A} (d : nat) (key : Device -> A) :
  quietly d (Device_get key d) (fun _ => True).
Proof.
  intros w Hd. destruct (lookup_lt_is_Some_2 _ _ Hd) as [x Hx].
  exists (key x), w. split; [now apply Device_get_at|].
  split; [apply quietChange_refl|exact I].
Qed.

Lemma quietly_update (d : nat) (f : Device -> Device) :
  (forall x, ieeeAddr (f x) = ieeeAddr x /\ interviewState (f x) = interviewState x) ->
  quietly d (Device_update f d) (fun _ => True).
Proof.
  intros Hf w Hd. destruct (lookup_lt_is_Some_2 _ _ Hd) as [x Hx].
  unfold Device_update. rewrite Hx. eexists. eexists. split; [reflexivity|].
  split; [|exact I]. destruct (Hf x) as [Hieee Hstate].
  apply cell_quiet with d x (f x); auto. repeat split.
Qed.

Lemma quietly_log (d : nat) (a : Action) :
  (forall i, interviewEvents i [a] = []) ->
  quietly d (modify (log_action a)) (fun _ => True).
Proof.
  intros Hquiet w _. eexists. eexists. split; [reflexivity|]. split; [|exact I].
  split; [repeat split|]. split; [reflexivity|]. split.
  - intros i x Hx. exists x. auto.
  - exists [a]. split; [reflexivity|exact Hquiet].
Qed.

Lemma quietly_getEndpoint (d : nat) (id : Z) :
  quietly d (Device_getEndpoint d id) (fun _ => True).
Proof.
  unfold Device_getEndpoint.
  apply quietly_bind with (Q := fun _ => True); [apply quietly_get|].
  intros eps _. now apply quietly_ret.
Qed.

(** ** The steps of the handlers *)

Lemma quietChange_state (w w' : World) (i : nat) :
  quietChange w w' -> stateAt w' i = stateAt w i.
Proof.
  intros (_ & Hlen & Hcells & _). unfold stateAt.
  destruct (devices w !! i) as [x|] eqn:Hx.
  - destruct (Hcells i x Hx) as (x' & Hx' & _ & Hstate). rewrite Hx'. simpl. now rewrite Hstate.
  - apply lookup_ge_None in Hx. rewrite (proj2 (lookup_ge_None (devices w') i)) by lia.
    reflexivity.
Qed.

Lemma quiet_outcome (w w' : World) (d : nat) (next : option Suspended) :
  (d < length (devices w))%nat -> quietChange w w' -> tame d next ->
  stepOutcome w None next w'.
Proof.
  intros Hd Hq Htame.
  split; [now destruct Hq|]. split; [now apply quietChange_evolves|]. split; [|split].
  - intros s r -> Hr. destruct (Htame s eq_refl) as [Hdev _]. rewrite (Hdev r Hr).
    destruct Hq as (_ & Hlen & _). lia.
  - intros i Hi _. now rewrite (quietChange_state _ _ i Hq).
  - intros r ->. destruct (Htame _ eq_refl) as [_ Hnot]. now destruct (Hnot r).
Qed.

Lemma outcome_after_quiet (w w1 w2 : World) (ended : option nat)
    (next : option Suspended) :
  quietChange w w1 -> stepOutcome w1 ended next w2 -> stepOutcome w ended next w2.
Proof.
  intros Hq (Hsame & Hev & Hvalid & Hrun & Hnew).
  split; [apply sameRuntime_trans with w1; [now destruct Hq|exact Hsame]|].
  split; [apply evolves_trans with w1; [now apply quietChange_evolves|exact Hev]|].
  split; [exact Hvalid|]. split.
  - intros i Hi Hne. apply Hrun; [|exact Hne]. now rewrite (quietChange_state _ _ i Hq).
  - intros r Hr. destruct (Hnew r Hr) as [Hnot Hnow]. split; [|exact Hnow].
    now rewrite <- (quietChange_state _ _ r Hq).
Qed.

Lemma joinFrom186_at (d : nat) (x : Device) (w : World) :
  devices w !! d = Some x ->
  exists w',
    joinFrom186 d w =
      (Resolved (match interviewState x with
                 | not_started | interview_failed => Some (joinAt191 d)
                 | _ => None
                 end), w') /\
    devices w' = <[d := with_interviewState (afterJoin (interviewState x)) x]> (devices w) /\
    trace w' = trace w ++ (if interviewed x then [] else [Emit (deviceInterview started d)]) /\
    sameRuntime w w'.
Proof.
  intros Hat.
  assert (Hlt : (d < length (devices w))%nat) by now apply lookup_lt_Some with x.
  unfold joinFrom186, Controller.onDeviceJoined_resume, Device_interview, bind,
    Device_get, Device_update, emit, modify, ret.
  rewrite Hat. simpl. unfold interviewed, afterJoin.
  destruct x as [ty ieee nwk mid mname pw model eps state]. simpl in *.
  destruct state; simpl;
    repeat (first [ rewrite Hat
                  | rewrite list_lookup_insert_eq by (rewrite ?length_insert; exact Hlt) ];
            simpl).
  all: eexists; (split; [reflexivity|]); simpl.
  all: (split; [first [reflexivity | symmetry; apply list_insert_id; exact Hat]|]).
  all: rewrite ?app_nil_r; repeat split.
Qed.

Lemma started_only_for (i j : nat) (x : Device) :
  i <> j ->
  interviewEvents i (if interviewed x then [] else [Emit (deviceInterview started j)]) = [].
Proof.
  intros Hne. destruct (interviewed x); [reflexivity|]. simpl.
  apply Nat.eqb_neq in Hne. rewrite Nat.eqb_sym. now rewrite Hne.
Qed.

Lemma joinFrom186_sound (d : nat) (w : World) :
  (d < length (devices w))%nat ->
  exists next w', joinFrom186 d w = (Resolved next, w') /\ stepOutcome w None next w'.
Proof.
  intros Hd. destruct (lookup_lt_is_Some_2 _ _ Hd) as [x Hat].
  destruct (joinFrom186_at d x w Hat) as (w' & Hrun & Hdev & Htrace & Hsame).
  eexists. exists w'. split; [exact Hrun|].
  assert (Hat' : devices w' !! d =
                 Some (with_interviewState (afterJoin (interviewState x)) x))
    by (rewrite Hdev; now apply list_lookup_insert_eq).
  split; [exact Hsame|]. split; [|split; [|split]].
  - apply (cell_evolves w w' d x _ _ Hat Hdev eq_refl Htrace).
    + intros i Hne. now apply started_only_for.
    + unfold interviewed. destruct (interviewState x); simpl; now rewrite ?Nat.eqb_refl.
  - intros s r Hs Hr. rewrite Hdev, length_insert.
    destruct (interviewState x); inversion Hs; subst s; simpl in Hr; now injection Hr as <-.
  - intros i Hi _. unfold stateAt in *. rewrite Hdev.
    destruct (decide (i = d)) as [->|Hne].
    + rewrite list_lookup_insert_eq by exact Hd. rewrite Hat in Hi. simpl in *.
      injection Hi as ->. reflexivity.
    + now rewrite list_lookup_insert_ne by auto.
  - intros r Hr. unfold stateAt.
    assert (r = d /\ (interviewState x = not_started \/ interviewState x = interview_failed))
      as [-> Hstate]
      by (destruct (interviewState x); inversion Hr; auto).
    rewrite Hat, Hat'. simpl. destruct Hstate as [-> | ->]; split; simpl; congruence.
Qed.

Lemma interviewEnds_sound (d : nat) (ok : bool) (w : World) :
  stateAt w d = Some in_progress ->
  exists w', Controller.interviewEnds d ok w = (Resolved tt, w') /\
             stepOutcome w (Some d) None w'.
Proof.
  intros Hstate. unfold stateAt in Hstate.
  destruct (devices w !! d) as [x|] eqn:Hat; [|discriminate].
  simpl in Hstate. injection Hstate as Hstate.
  destruct (interviewEnds_at d ok w x Hat) as (w' & Hrun & Hdev & Htrace & Hsame).
  exists w'. split; [exact Hrun|]. split; [exact Hsame|]. split; [|split; [|split]].
  - apply (cell_evolves w w' d x _ _ Hat Hdev eq_refl Htrace).
    + intros i Hne. simpl. apply Nat.eqb_neq in Hne. rewrite Nat.eqb_sym. now rewrite Hne.
    + rewrite Hstate. simpl. rewrite Nat.eqb_refl. now destruct ok.
  - discriminate.
  - intros i Hi Hne. unfold stateAt in *. rewrite Hdev.
    rewrite list_lookup_insert_ne; [exact Hi|]. intros ->. now apply Hne.
  - discriminate.
Qed.

Lemma create_sound (payload : DeviceJoinedPayload) (w : World) :
  exists w',
    Device_create None (joined_ieeeAddr payload) (joined_networkAddress payload)
      None None None VUndefined [] w = (Resolved (length (devices w)), w') /\
    stepOutcome w None (Some (joinAt175 (length (devices w)))) w'.
Proof.
  unfold Device_create. eexists. split; [reflexivity|].
  split; [repeat split|]. split; [|split; [|split]]; simpl.
  - exists []. simpl. split; [now rewrite app_nil_r|]. split; [|split].
    + intros i x Hx. exists x. rewrite lookup_app_l by now apply lookup_lt_Some with x.
      auto.
    + intros i x' Hx' Hge. simpl.
      assert (i = length (devices w)) as ->.
      { apply lookup_lt_Some in Hx'. rewrite length_app in Hx'. simpl in Hx'. lia. }
      rewrite list_lookup_middle in Hx' by reflexivity. now injection Hx' as <-.
    + reflexivity.
  - intros s r Hs Hr. injection Hs as <-. simpl in Hr. injection Hr as <-.
    rewrite length_app. simpl. lia.
  - intros i Hi _. unfold stateAt in *. simpl.
    destruct (devices w !! i) as [x|] eqn:Hx; [|discriminate].
    rewrite lookup_app_l by now apply lookup_lt_Some with x.
    now rewrite Hx.
  - discriminate.
Qed.

(** ** The quiet steps of [onZclData] *)

Section QuietFrames.

Variable zcl : Imports.

Lemma tame_none (d : nat) : tame d None.
Proof. intros s Hs. discriminate. Qed.

Lemma zclFrom243_quiet (zclData : ZclDataPayload) (d : nat) (e : Endpoint) :
  quietly d (zclFrom243 zcl zclData d e) (tame d).
Proof.
  unfold zclFrom243. cbv zeta. apply quietly_bind with (Q := fun _ => True).
  - destruct (fst (parseCommand zcl (zcl_frame zclData))) as [kind|].
    + apply quietly_bind with (Q := fun _ => True); [apply quietly_getEndpoint|].
      intros ep _. now apply quietly_log.
    + now apply quietly_ret.
  - intros _ _. destruct (disableDefaultResponse _); simpl.
    + apply quietly_ret, tame_none.
    + apply quietly_bind with (Q := fun _ => True); [now apply quietly_log|].
      intros _ _. apply quietly_ret. intros s Hs. injection Hs as <-.
      split; [discriminate|discriminate].
Qed.

Lemma zclFrom216_quiet (zclData : ZclDataPayload) (d : nat) (e : Endpoint) :
  quietly d (zclFrom216 zcl zclData d e) (tame d).
Proof.
  unfold zclFrom216. cbv zeta.
  destruct (parseCommand_shape zcl (zcl_frame zclData)) as [(kind & kv & Hparse)|Hparse];
    rewrite Hparse; simpl fst; simpl snd.
  - destruct (reportsAttributes (Some kind)); [|apply zclFrom243_quiet].
    unfold data_modelId. apply quietly_bind with (Q := fun _ => True).
    { now apply quietly_ret. }
    intros model _. destruct (truthy model); [|apply zclFrom243_quiet].
    apply quietly_bind with (Q := fun _ => True); [apply quietly_get|].
    intros stored _. destruct (truthy stored); simpl; [apply zclFrom243_quiet|].
    apply quietly_bind with (Q := fun _ => True).
    { apply quietly_update. intros x. split; reflexivity. }
    intros _ _. apply quietly_ret. intros s Hs. injection Hs as <-. simpl.
    split; [intros r Hr; now injection Hr|discriminate].
  - simpl. apply zclFrom243_quiet.
Qed.

Lemma createEndpoint_quiet (d : nat) (id : Z) :
  quietly d (Device_createEndpoint d id) (fun _ => True).
Proof.
  unfold Device_createEndpoint.
  apply quietly_bind with (Q := fun _ => True); [apply quietly_get|].
  intros eps _. apply quietly_bind with (Q := fun _ => True).
  { apply quietly_update. intros x. split; reflexivity. }
  intros _ _. now apply quietly_ret.
Qed.

Lemma resume_sound (ok : bool) (s : Suspended) (w : World) :
  (forall d, deviceOf s = Some d -> (d < length (devices w))%nat) ->
  (forall d, s = joinAt191 d -> stateAt w d = Some in_progress) ->
  exists next w',
    resume zcl ok s w = (Resolved next, w') /\
    stepOutcome w (match s with joinAt191 d => Some d | _ => None end) next w'.
Proof.
  intros Hvalid Hrunning.
  assert (Hquiet : forall d (c : M (option Suspended)),
            (d < length (devices w))%nat -> quietly d c (tame d) ->
            exists next w', c w = (Resolved next, w') /\ stepOutcome w None next w').
  { intros d c Hd Hc. destruct (Hc w Hd) as (next & w' & Hrun & Hq & Htame).
    exists next, w'. split; [exact Hrun|]. now apply quiet_outcome with d. }
  destruct s as [payload [d|]|d|d|d|zclData [d|]|zclData d e|zclData d e|b|found|b]; simpl.
  - (* line 171, device found *)
    assert (Hd : (d < length (devices w))%nat) by now apply Hvalid.
    destruct (lookup_lt_is_Some_2 _ _ Hd) as [x Hat].
    unfold bind at 1. rewrite (Device_get_at networkAddress d x w Hat).
    destruct (networkAddress x =? joined_networkAddress payload); simpl.
    + now apply joinFrom186_sound.
    + apply (Hquiet d); [exact Hd|].
      apply quietly_bind with (Q := fun _ => True).
      { apply quietly_update. intros y. split; reflexivity. }
      intros _ _. apply quietly_ret. intros s Hs. injection Hs as <-. simpl.
      split; [intros r Hr; now injection Hr|discriminate].
  - (* line 171, no device found *)
    destruct (create_sound payload w) as (w' & Hrun & Hout).
    eexists. exists w'. split; [|exact Hout]. unfold bind. now rewrite Hrun.
  - (* line 175 *)
    assert (Hd : (d < length (devices w))%nat) by now apply Hvalid.
    unfold bind at 1, emit, modify.
    destruct (joinFrom186_sound d (log_action (Emit (deviceJoined d)) w) Hd)
      as (next & w' & Hrun & Hout).
    exists next, w'. split; [exact Hrun|].
    apply outcome_after_quiet with (log_action (Emit (deviceJoined d)) w); [|exact Hout].
    split; [repeat split|]. split; [reflexivity|]. split.
    + intros i x Hx. exists x. auto.
    + exists [Emit (deviceJoined d)]. split; reflexivity.
  - (* line 183 *)
    apply joinFrom186_sound. now apply Hvalid.
  - (* line 191 *)
    destruct (interviewEnds_sound d ok w (Hrunning d eq_refl)) as (w' & Hrun & Hout).
    exists None, w'. split; [|exact Hout]. unfold bind. now rewrite Hrun.
  - (* line 204, device found *)
    assert (Hd : (d < length (devices w))%nat) by now apply Hvalid.
    apply (Hquiet d); [exact Hd|].
    apply quietly_bind with (Q := fun _ => True); [apply quietly_getEndpoint|].
    intros [e|] _.
    + apply zclFrom216_quiet.
    + apply quietly_bind with (Q := fun _ => True); [apply createEndpoint_quiet|].
      intros e _. apply quietly_ret. intros s Hs. injection Hs as <-. simpl.
      split; [intros r Hr; now injection Hr|discriminate].
  - (* line 204, no device found *)
    exists None, w. split; [reflexivity|].
    split; [apply sameRuntime_refl|]. split; [apply evolves_refl|].
    split; [discriminate|]. split; [auto|discriminate].
  - (* line 213 *)
    apply (Hquiet d); [now apply Hvalid|apply zclFrom216_quiet].
  - (* line 240 *)
    apply (Hquiet d); [now apply Hvalid|apply zclFrom243_quiet].
  - (* line 254 *)
    exists None, w. split; [reflexivity|].
    split; [apply sameRuntime_refl|]. split; [apply evolves_refl|].
    split; [discriminate|]. split; [auto|discriminate].
  - (* line 155 *)
    eexists. eexists. split; [reflexivity|].
    split; [repeat split|]. split; [|split; [discriminate|split; [auto|discriminate]]].
    apply quietChange_evolves. split; [repeat split|]. split; [reflexivity|]. split.
    + intros i x Hx. exists x. auto.
    + exists [Emit (deviceAnnounce found)]. split; reflexivity.
  - (* line 163 *)
    eexists. eexists. split; [reflexivity|].
    split; [repeat split|]. split; [|split; [discriminate|split; [auto|discriminate]]].
    apply quietChange_evolves. split; [repeat split|]. split; [reflexivity|]. split.
    + intros i x Hx. exists x. auto.
    + exists [Emit adapterDisconnected]. split; reflexivity.
Qed.

Lemma arrive_sound (e : AdapterEvent) (w : World) :
  exists next w',
    arrive e w = (Resolved next, w') /\ stepOutcome w None next w' /\
    waiting (option_list next) = [].
Proof.
  assert (Hsame : forall next,
            (forall s r, next = Some s -> deviceOf s = Some r ->
                         (r < length (devices w))%nat) ->
            (forall r, next <> Some (joinAt191 r)) ->
            stepOutcome w None next w).
  { intros next Hv Hn. split; [apply sameRuntime_refl|]. split; [apply evolves_refl|].
    split; [exact Hv|]. split; [auto|]. intros r Hr. now destruct (Hn r). }
  assert (Hfound : forall (P : Device -> Prop) `{forall x, Decision (P x)} r,
            fst <$> list_find P (devices w) = Some r -> (r < length (devices w))%nat).
  { intros P HP r Hr. destruct (list_find P (devices w)) as [[j x]|] eqn:Hf; [|discriminate].
    simpl in Hr. injection Hr as <-. destruct (find_lookup _ _ _ _ Hf) as [Hat _].
    now apply lookup_lt_Some with x. }
  destruct e as [payload|zclData|payload|b]; simpl.
  - eexists. exists w. split; [reflexivity|]. split; [|reflexivity].
    apply Hsame; [|discriminate]. intros s r Hs Hr. injection Hs as <-. simpl in Hr.
    exact (Hfound _ _ r Hr).
  - eexists. exists w. split; [reflexivity|]. split; [|reflexivity].
    apply Hsame; [|discriminate]. intros s r Hs Hr. injection Hs as <-. simpl in Hr.
    exact (Hfound _ _ r Hr).
  - eexists. exists w. split; [reflexivity|]. split; [|reflexivity].
    apply Hsame; [|discriminate]. intros s r Hs Hr. injection Hs as <-. discriminate.
  - eexists. eexists. split; [reflexivity|]. split; [|reflexivity].
    split; [repeat split|]. split; [|split; [|split; [auto|discriminate]]].
    + apply quietChange_evolves. split; [repeat split|]. split; [reflexivity|]. split.
      * intros i x Hx. exists x. auto.
      * exists [AdapterStop]. split; reflexivity.
    + intros s r Hs Hr. injection Hs as <-. discriminate.
Qed.

End QuietFrames.

(** ** Any order of the steps *)

Lemma waiting_app (l1 l2 : list Suspended) : waiting (l1 ++ l2) = waiting l1 ++ waiting l2.
Proof. apply omap_app. Qed.

Lemma waiting_delete (pool : list Suspended) (k : nat) (s : Suspended) :
  pool !! k = Some s -> waiting pool ≡ₚ waiting [s] ++ waiting (delete k pool).
Proof.
  intros Hk. rewrite <- waiting_app. unfold waiting.
  apply omap_Permutation. simpl. now apply delete_Permutation.
Qed.

Lemma waiting_next (next : option Suspended) (r : nat) :
  r ∈ waiting (option_list next) -> next = Some (joinAt191 r).
Proof.
  destruct next as [s|]; simpl; [|intros H; now apply elem_of_nil in H].
  destruct s; simpl; intros H; try now apply elem_of_nil in H.
  apply list_elem_of_singleton in H. now subst.
Qed.

Section AnyOrder.

Variable zcl : Imports.

Lemma step_sound (s : Step) (st : World * list Suspended) :
  poolSound st ->
  exists st', step zcl s st = Some st' /\ poolSound st' /\
              sameRuntime (fst st) (fst st') /\ evolves (fst st) (fst st').
Proof.
  destruct st as [w pool]. intros (Hvalid & Hrunning & Hdistinct). simpl in *.
  assert (Hgoes : forall ended next w' rest,
            stepOutcome w ended next w' ->
            rest ⊆ pool ->
            (forall d, d ∈ waiting rest -> d ∈ waiting pool /\ ended <> Some d) ->
            NoDup (waiting rest) ->
            poolSound (w', rest ++ option_list next)).
  { intros ended next w' rest (Hsame & Hev & Hnext & Hrun & Hnew) Hsub Hrest Hnodup.
    split; [|split]; simpl.
    - apply Forall_app. split.
      + apply Forall_forall. intros s' Hs' d Hd.
        rewrite Forall_forall in Hvalid. pose proof (Hvalid s' (Hsub s' Hs') d Hd).
        pose proof (evolves_length _ _ Hev). lia.
      + destruct next as [s'|]; simpl; [|constructor].
        constructor; [|constructor]. intros d Hd. now apply (Hnext s' d).
    - intros d Hd. rewrite waiting_app in Hd. apply elem_of_app in Hd as [Hd|Hd].
      + destruct (Hrest d Hd) as [Hin Hne]. apply Hrun; [now apply Hrunning|exact Hne].
      + apply waiting_next in Hd. now destruct (Hnew d Hd).
    - rewrite waiting_app. apply NoDup_app. split; [exact Hnodup|]. split.
      + intros d Hd Hd'. apply waiting_next in Hd'. destruct (Hnew d Hd') as [Hnot _].
        destruct (Hrest d Hd) as [Hin _]. now apply Hnot, Hrunning.
      + destruct next as [s'|]; simpl; [|constructor].
        destruct s'; simpl; try constructor; [apply not_elem_of_nil|constructor]. }
  destruct s as [e|k ok]; simpl.
  - destruct (arrive_sound e w) as (next & w' & Hrun & Hout & _).
    rewrite Hrun. eexists. split; [reflexivity|].
    split; [|destruct Hout as (? & ? & _); auto].
    apply (Hgoes None); [exact Hout|auto| |exact Hdistinct].
    intros d Hd. split; [exact Hd|discriminate].
  - destruct (pool !! k) as [s|] eqn:Hk.
    + assert (Hs : forall d, deviceOf s = Some d -> (d < length (devices w))%nat)
        by (rewrite Forall_lookup in Hvalid; exact (Hvalid k s Hk)).
      pose proof (waiting_delete pool k s Hk) as Hperm.
      assert (Hnodup : NoDup (waiting [s] ++ waiting (delete k pool)))
        by now rewrite <- Hperm.
      apply NoDup_app in Hnodup as (_ & Hapart & Hrest).
      assert (Hs' : forall d, s = joinAt191 d -> stateAt w d = Some in_progress).
      { intros d ->. apply Hrunning. rewrite Hperm. simpl. apply elem_of_cons. now left. }
      destruct (resume_sound zcl ok s w Hs Hs') as (next & w' & Hrun & Hout).
      rewrite Hrun. eexists. split; [reflexivity|].
      split; [|destruct Hout as (? & ? & _); auto].
      apply (Hgoes _ _ _ _ Hout); [|intros d Hd|exact Hrest].
      * apply sublist_subseteq, sublist_delete.
      * split; [rewrite Hperm; apply elem_of_app; now right|].
        destruct s; try discriminate. intros Heq. injection Heq as ->.
        apply (Hapart d); [simpl; apply elem_of_cons; now left|exact Hd].
    + exists (w, pool). split; [reflexivity|].
      split; [now split|]. split; [apply sameRuntime_refl|apply evolves_refl].
Qed.

Lemma schedule_sound (steps : list Step) (st : World * list Suspended) :
  poolSound st ->
  exists st', schedule zcl steps st = Some st' /\ poolSound st' /\
              sameRuntime (fst st) (fst st') /\ evolves (fst st) (fst st').
Proof.
  revert st. induction steps as [|s steps IH]; intros st Hst; simpl.
  - exists st. split; [reflexivity|]. split; [exact Hst|].
    split; [apply sameRuntime_refl|apply evolves_refl].
  - destruct (step_sound s st Hst) as (st1 & Hstep & Hst1 & Hsame1 & Hev1).
    rewrite Hstep. destruct (IH st1 Hst1) as (st2 & Hrun & Hst2 & Hsame2 & Hev2).
    exists st2. split; [exact Hrun|]. split; [exact Hst2|].
    split; [now apply sameRuntime_trans with (fst st1)|now apply evolves_trans with (fst st1)].
Qed.

Lemma poolSound_empty (w : World) : poolSound (w, []).
Proof.
  split; [constructor|]. split; [|constructor].
  intros d Hd. now apply elem_of_nil in Hd.
Qed.

End AnyOrder.

(** X17: Whatever the order in which adapter events arrive and stopped
    handlers go on, starting with no handler under way: no handler reads a
    device object that is not there (every step is defined); groups, timers
    and the permit-join state are untouched; and no device is removed or
    given another hardware address, the hardware addresses before being a
    prefix of those after. *)
Theorem overlapping_handlers_keep_devices (zcl : Imports) (steps : list Step)
    (w : World) :
  exists w' pool,
    schedule zcl steps (w, []) = Some (w', pool) /\
    sameRuntime w w' /\
    (ieeeAddr <$> devices w) `prefix_of` (ieeeAddr <$> devices w').
Proof.
  destruct (schedule_sound zcl steps (w, []) (poolSound_empty w))
    as ([w' pool] & Hrun & _ & Hsame & Hev).
  exists w', pool. split; [exact Hrun|]. split; [exact Hsame|].
  now apply evolves_addresses.
Qed.


(** X19: Two joins of one unknown hardware address whose handlers overlap
    create two devices.  Both handlers look the address up (line 171)
    before either creates the device (line 175), both find nothing, and
    each creates a device, announces it and starts its interview: the
    store ends with two devices of that hardware address. *)
Theorem overlapping_joins_create_twice (zcl : Imports) (payload : DeviceJoinedPayload)
    (w : World) :
  Forall (fun x => ieeeAddr x <> joined_ieeeAddr payload) (devices w) ->
  let n := length (devices w) in
  let x := {| deviceType := None; ieeeAddr := joined_ieeeAddr payload;
              networkAddress := joined_networkAddress payload;
              manufacturerID := None; manufacturerName := None;
              powerSource := None; modelID := VUndefined; endpoints := [];
              interviewState := in_progress |} in
  exists w',
    schedule zcl
      [arrives (adapterDeviceJoined payload); arrives (adapterDeviceJoined payload);
       resumes 0 true; resumes 0 true; resumes 0 true; resumes 0 true] (w, [])
    = Some (w', [joinAt191 n; joinAt191 (S n)]) /\
    devices w' = devices w ++ [x; x] /\
    trace w' = trace w ++ [Emit (deviceJoined n); Emit (deviceInterview started n);
                           Emit (deviceJoined (S n));
                           Emit (deviceInterview started (S n))].
Proof.
  intros Hnew n x.
  pose proof (find_none (fun d => ieeeAddr d = joined_ieeeAddr payload) (devices w) Hnew)
    as Hnone.
  set (x0 := {| deviceType := None; ieeeAddr := joined_ieeeAddr payload;
                networkAddress := joined_networkAddress payload;
                manufacturerID := None; manufacturerName := None;
                powerSource := None; modelID := VUndefined; endpoints := [];
                interviewState := not_started |}).
  assert (H0 : forall l : list Device, (devices w ++ x0 :: l) !! n = Some x0)
    by (intros l; now apply list_lookup_middle).
  assert (H0' : forall l : list Device, (devices w ++ x :: l) !! n = Some x)
    by (intros l; now apply list_lookup_middle).
  assert (H1 : forall y, (devices w ++ [y; x0]) !! S n = Some x0).
  { intros y. change (devices w ++ [y; x0]) with (devices w ++ [y] ++ [x0]).
    rewrite app_assoc. apply list_lookup_middle. rewrite length_app. simpl. lia. }
  assert (H1' : forall y, (devices w ++ [y; x]) !! S n = Some x).
  { intros y. change (devices w ++ [y; x]) with (devices w ++ [y] ++ [x]).
    rewrite app_assoc. apply list_lookup_middle. rewrite length_app. simpl. lia. }
  assert (I0 : forall y z l, <[n := z]> (devices w ++ y :: l) = devices w ++ z :: l).
  { intros y z l. rewrite insert_app_r_alt by (unfold n; lia).
    now replace (n - length (devices w))%nat with 0%nat by (unfold n; lia). }
  assert (I1 : forall y z u, <[S n := u]> (devices w ++ [y; z]) = devices w ++ [y; u]).
  { intros y z u. rewrite insert_app_r_alt by (unfold n; lia).
    now replace (S n - length (devices w))%nat with 1%nat by (unfold n; lia). }
  unfold schedule, step, arrive, resume, joinFrom186, Controller.onDeviceJoined_resume,
    Device_interview, Device_findByIeeeAddr, Device_create, Device_get, Device_update,
    emit, modify, bind, ret.
  simpl. rewrite Hnone. simpl. rewrite <- ?app_assoc. simpl.
  fold n. fold x0.
  repeat (first [ rewrite H0 | rewrite H0' | rewrite H1 | rewrite H1'
                | rewrite I0 | rewrite I1
                | progress change (with_interviewState in_progress x0) with x
                | progress replace (length (devices w ++ [x0])) with (S n)
                    by (rewrite length_app; unfold n; simpl; lia) ];
          simpl).
  eexists. split; [reflexivity|]. simpl. split; [reflexivity|].
  now rewrite <- !app_assoc.
Qed.

Lemma overlapping_joins_create_twice_witness :
  exists w',
    schedule Sample.imports Sample.overlappingJoins (Sample.started, []) =
      Some (w', [joinAt191 1; joinAt191 2]) /\
    length (filter (fun x => ieeeAddr x = "0xAA"%string) (devices w')) = 2%nat.
Proof.
  destruct (overlapping_joins_create_twice Sample.imports Sample.joinAA Sample.started)
    as (w' & Hrun & Hdev & _).
  { repeat constructor. discriminate. }
  exists w'. split; [exact Hrun|]. rewrite Hdev. reflexivity.
Defined.


(** ** Handlers that do not overlap *)



